(** * Yourway route optimizer: emissions, scoring, cache and orchestration

    A shallow embedding of the Python sources

    - [fedex_route_optimizer/route_engine/route_optimizer.py]  (class [RouteOptimizer])
    - [fedex_route_optimizer/emissions/emissions_calculator.py] (class [EmissionsCalculator])
    - [prototype.py]                                            (function [calculate_emissions])

    Conventions of the embedding.

    - Python numbers ([int] and [float]) are exact rationals [Q]; equality of
      computed numbers is [Qeq] ([==]).  The definitions compute without
      floating-point rounding; a property that fixes an integer obtained by
      [int()] from a float is stated up to that rounding
      ([within_rounding]).
    - Dynamically typed values that come from configuration files, providers
      or callers are [pyval]s, and an operation applied to a value of the
      wrong shape raises, as in Python.
    - Exceptions are explicit: a [try] body is a computation in [exc], and
      [try ... except Exception] is [try_except], or [try_catch] when the
      handler can raise in turn.
    - [self.cache] is a [gmap] threaded through the calls; [time.time()] and
      [datetime.now().isoformat()] are inputs. *)

From Stdlib Require Import QArith Qabs Qround Qminmax ZArith Lia Lqa Ascii.
From Stdlib Require Import Sorting.Sorted Sorting.Permutation.
From stdpp Require Import base option list gmap strings pretty.

(** ** Python values, exceptions, numeric built-ins *)

Module Py.

Local Open Scope Q_scope.

#[warnings="-register-all"]
Inductive pyval :=
| VNone
| VNum (q : Q)
| VStr (s : string)
| VDict (d : gmap string pyval).

Inductive exn :=
| TypeError (msg : string)
| KeyError (msg : string)
| AttributeError (msg : string)
| RuntimeError (msg : string)
| ValueError (msg : string)
| ProviderError (msg : string).

(** [str(e)]; the texts abbreviate Python's messages. *)
Definition str_exn (e : exn) : string :=
  match e with
  | TypeError m | KeyError m | AttributeError m | RuntimeError m
  | ValueError m | ProviderError m => m
  end.

Inductive exc (A : Type) :=
| Ok (a : A)
| Raise (e : exn).
Arguments Ok {A} a.
Arguments Raise {A} e.

Definition bind {A B} (c : exc A) (k : A -> exc B) : exc B :=
  match c with
  | Ok a => k a
  | Raise e => Raise e
  end.

Definition try_except {A} (body : exc A) (handler : exn -> A) : A :=
  match body with
  | Ok a => a
  | Raise e => handler e
  end.

(** [try ... except Exception] whose handler may raise in turn. *)
Definition try_catch {A} (body : exc A) (handler : exn -> exc A) : exc A :=
  match body with
  | Ok a => Ok a
  | Raise e => handler e
  end.

Fixpoint exc_mapM {A B} (f : A -> exc B) (l : list A) : exc (list B) :=
  match l with
  | [] => Ok []
  | x :: t =>
      bind (f x) (fun y => bind (exc_mapM f t) (fun ys => Ok (y :: ys)))
  end.

(** Arithmetic and ordering comparisons need a number on the Python side. *)
Definition as_num (v : pyval) : exc Q :=
  match v with
  | VNum q => Ok q
  | _ => Raise (TypeError "unsupported operand type(s)")
  end.

(** [d[k]] on a value expected to be a dict. *)
Definition getitem (v : pyval) (k : string) : exc pyval :=
  match v with
  | VDict d =>
      match d !! k with
      | Some x => Ok x
      | None => Raise (KeyError k)
      end
  | _ => Raise (TypeError "object is not subscriptable")
  end.

(** [d.get(k, default)] *)
Definition get_default (v : pyval) (k : string) (dflt : pyval) : exc pyval :=
  match v with
  | VDict d => Ok (default dflt (d !! k))
  | _ => Raise (AttributeError "object has no attribute 'get'")
  end.

(** [k in s] on strings: [k] occurs in [s] as a contiguous substring. *)
Fixpoint is_infix (k s : string) : bool :=
  String.prefix k s ||
  match s with
  | EmptyString => false
  | String _ t => is_infix k t
  end.

(** [k in d] *)
Definition contains (v : pyval) (k : string) : exc bool :=
  match v with
  | VDict d => Ok (bool_decide (is_Some (d !! k)))
  | VStr s => Ok (is_infix k s)
  | _ => Raise (TypeError "argument is not iterable")
  end.

(** [v == s] for a string literal [s] *)
Definition eq_str (v : pyval) (s : string) : bool :=
  match v with
  | VStr t => String.eqb t s
  | _ => false
  end.

(** [int(x)]: truncation towards zero. *)
Definition py_int (x : Q) : Z :=
  if Qle_bool 0 x then Qfloor x else Qceiling x.

(** [round(x)]: nearest integer, ties to the even neighbour. *)
Definition py_round (x : Q) : Z :=
  let f := Qfloor x in
  match Qcompare (x - inject_Z f) (1 # 2) with
  | Lt => f
  | Gt => (f + 1)%Z
  | Eq => if Z.even f then f else (f + 1)%Z
  end.

(** [round(x, 2)] *)
Definition py_round2 (x : Q) : Q := inject_Z (py_round (x * 100)) / 100.

(** [min(...)] and [max(...)] over a non-empty sequence whose first element
    is [x]: the running value is replaced only by a strictly smaller
    (larger) element. *)
Definition py_min (x : Q) (xs : list Q) : Q := fold_left Qmin xs x.
Definition py_max (x : Q) (xs : list Q) : Q := fold_left Qmax xs x.

(** [s.lower()] on the ASCII range.  The estimator compares the result
    with ASCII words only, and no character outside that range lower-cases
    to a letter of these words. *)
Definition lower_ascii (c : Ascii.ascii) : Ascii.ascii :=
  let n := Ascii.nat_of_ascii c in
  if (65 <=? n)%nat && (n <=? 90)%nat then Ascii.ascii_of_nat (n + 32) else c.

Fixpoint lower (s : string) : string :=
  match s with
  | EmptyString => EmptyString
  | String c t => String (lower_ascii c) (lower t)
  end.

(** [sorted(l, key=..., reverse=True)] on a list already decorated with its
    keys.  The built-in sort is stable also when reversed: an element is
    placed after the elements with a strictly larger key, before those with
    an equal or smaller key that followed it in the input. *)
Fixpoint insert_desc {A} (k : Z) (a : A) (l : list (Z * A)) : list (Z * A) :=
  match l with
  | [] => [(k, a)]
  | (k', a') :: t =>
      if (k <? k')%Z then (k', a') :: insert_desc k a t
      else (k, a) :: l
  end.

Fixpoint sorted_desc {A} (l : list (Z * A)) : list (Z * A) :=
  match l with
  | [] => []
  | (k, a) :: t => insert_desc k a (sorted_desc t)
  end.

(** [l[:n]] *)
Definition slice_to {A} (l : list A) (n : Z) : list A :=
  if (0 <=? n)%Z then take (Z.to_nat n) l
  else take (Z.to_nat (Z.of_nat (length l) + n)) l.

End Py.
Export Py.

#[export] Instance exc_ret : MRet exc := fun A a => Ok a.
#[export] Instance exc_bind : MBind exc := fun A B k c => bind c k.

(** ** route_engine/route_optimizer.py *)

Module RouteOptimizer.

Local Open Scope Q_scope.

(** A coordinate pair [(latitude, longitude)]. *)
Definition point : Type := Q * Q.

(** A normalized route dict; [emissions_kg_co2], [score] and
    [recommendation] are the keys added by the later pipeline stages. *)
Record route := {
  rid : string;
  provider : string;
  distance_meters : pyval;
  duration_seconds : pyval;
  traffic_delay_seconds : pyval;
  geometry : list point;
  raw_data : pyval;
  emissions_kg_co2 : option Q;
  score : option Z;
  recommendation : option string
}.

Definition set_score (r : route) (s : Z) (rec : string) : route :=
  {| rid := rid r; provider := provider r;
     distance_meters := distance_meters r;
     duration_seconds := duration_seconds r;
     traffic_delay_seconds := traffic_delay_seconds r;
     geometry := geometry r; raw_data := raw_data r;
     emissions_kg_co2 := emissions_kg_co2 r;
     score := Some s; recommendation := Some rec |}.

Definition set_emissions (r : route) (e : Q) : route :=
  {| rid := rid r; provider := provider r;
     distance_meters := distance_meters r;
     duration_seconds := duration_seconds r;
     traffic_delay_seconds := traffic_delay_seconds r;
     geometry := geometry r; raw_data := raw_data r;
     emissions_kg_co2 := Some e;
     score := score r; recommendation := recommendation r |}.

(** [route["duration_seconds"]] and [route["emissions_kg_co2"]] as the
    scorer reads them. *)
Definition duration_of (r : route) : exc Q := as_num (duration_seconds r).

Definition emissions_of (r : route) : exc Q :=
  match emissions_kg_co2 r with
  | Some e => Ok e
  | None => Raise (KeyError "emissions_kg_co2")
  end.

Definition weights (criteria : string) : Q * Q :=
  if String.eqb criteria "time" then (0.8, 0.2)
  else if String.eqb criteria "emissions" then (0.2, 0.8)
  else (0.5, 0.5).

Definition recommendation_of (s : Z) : string :=
  if (80 <=? s)%Z then "Highly Recommended"
  else if (60 <=? s)%Z then "Recommended"
  else "Alternative Option".

(** Body of the scoring loop for one route. *)
Definition score_value (time_weight emissions_weight : Q)
    (min_time time_range min_emissions emissions_range : Q)
    (d e : Q) : Z :=
  let time_score :=
    if Qlt_le_dec 0 time_range then 1 - ((d - min_time) / time_range) else 1 in
  let emissions_score :=
    if Qlt_le_dec 0 emissions_range
    then 1 - ((e - min_emissions) / emissions_range) else 1 in
  py_int ((time_weight * time_score + emissions_weight * emissions_score) * 100).

Definition score_one (time_weight emissions_weight : Q)
    (min_time time_range min_emissions emissions_range : Q)
    (rde : route * Q * Q) : Z * route :=
  let '(r, d, e) := rde in
  let s := score_value time_weight emissions_weight
             min_time time_range min_emissions emissions_range d e in
  (s, set_score r s (recommendation_of s)).

Definition _score_routes (routes : list route) (criteria : string)
  : exc (list route) :=
  match routes with
  | [] => Ok routes
  | _ :: _ =>
      let '(time_weight, emissions_weight) := weights criteria in
      ds ← exc_mapM duration_of routes;
      let min_time := py_min (hd 0 ds) (tl ds) in
      let max_time := py_max (hd 0 ds) (tl ds) in
      let time_range := Qmax 1 (max_time - min_time) in
      es ← exc_mapM emissions_of routes;
      let min_emissions := py_min (hd 0 es) (tl es) in
      let max_emissions := py_max (hd 0 es) (tl es) in
      let emissions_range := Qmax 0.1 (max_emissions - min_emissions) in
      let scored :=
        map (score_one time_weight emissions_weight
               min_time time_range min_emissions emissions_range)
            (zip (zip routes ds) es) in
      Ok (map snd (sorted_desc scored))
  end.

(** *** The cache key

    [coord] is the type of a coordinate and [str] its [str()] conversion as
    used by the f-string. *)
Section CacheKey.
Context {coord : Type} (str : coord -> string).

Definition stop_str (s : coord * coord) : string :=
  str s.1 +:+ ":" +:+ str s.2.

Definition _generate_cache_key (origin destination : coord * coord)
    (stops : option (list (coord * coord)))
    (vehicle_type criteria : string) : string :=
  let stops_str :=
    match stops with
    | None | Some [] => ""
    | Some l => String.concat "-" (map stop_str l)
    end in
  str origin.1 +:+ ":" +:+ str origin.2 +:+ "-" +:+
  str destination.1 +:+ ":" +:+ str destination.2 +:+ "-" +:+
  stops_str +:+ "-" +:+ vehicle_type +:+ "-" +:+ criteria.

End CacheKey.

(** *** The result cache *)

Record cache_entry (V : Type) := {
  data : V;
  timestamp : Q
}.
Arguments data {V} _.
Arguments timestamp {V} _.

(** [now] is the value of [time.time()] at the call. *)
Definition _get_from_cache {V} (cache : gmap string (cache_entry V))
    (cache_ttl : Q) (now : Q) (key : string) : option V :=
  match cache !! key with
  | Some entry =>
      if Qlt_le_dec (now - timestamp entry) cache_ttl
      then Some (data entry) else None
  | None => None
  end.

Definition _add_to_cache {V} (cache : gmap string (cache_entry V))
    (now : Q) (key : string) (d : V) : gmap string (cache_entry V) :=
  <[key := {| data := d; timestamp := now |}]> cache.

(** *** Collaborators

    The provider clients in [self.api_clients] are external.  A client is
    modelled by what a call returns: an exception, or the fields that the
    optimizer reads from the response.  An absent key of [api_clients] is
    [None]. *)

Record tomtom_route := {
  tt_summary : option pyval;            (* route.get("summary") *)
  tt_points : list point;               (* first leg's "points" *)
  tt_raw : pyval
}.

Record google_route := {
  gm_distance : pyval;                  (* leg "distance"."value", default 0 *)
  gm_duration : pyval;                  (* leg "duration"."value", default 0 *)
  gm_duration_in_traffic : pyval;       (* "duration_in_traffic"."value" *)
  gm_polyline : list point;             (* decoded overview polyline *)
  gm_raw : pyval
}.

Record osrm_route := {
  osrm_distance : pyval;                (* route.get("distance", 0) *)
  osrm_duration : pyval;                (* route.get("duration", 0) *)
  osrm_geometry : list point;
  osrm_raw : pyval
}.

Record tomtom_client := {
  get_traffic_flow : list point -> exc pyval;
  tomtom_get_route :
    point -> point -> option (list point) -> string -> string ->
    exc (list tomtom_route)
}.

Record api_clients := {
  tomtom : option tomtom_client;
  google_maps :
    option (point -> point -> option (list point) -> string ->
            exc (list google_route));
  osrm : option (point -> point -> option (list point) ->
                 exc (list osrm_route));
  aqicn : option (point -> exc pyval)
}.

(** A provider route as built by the [_get_*_routes] methods and by
    [_create_dummy_routes]. *)
Record raw_route := {
  raw_provider : string;
  route_id : string;
  summary : pyval;
  raw_geometry : list point;
  raw : pyval
}.

Definition summary_dict (len time delay : pyval) : pyval :=
  VDict (<["lengthInMeters" := len]>
         (<["travelTimeInSeconds" := time]>
          (<["trafficDelayInSeconds" := delay]> ∅))).

Definition enumerate {A} (l : list A) : list (nat * A) := imap pair l.

Definition _get_tomtom_routes (clients : api_clients)
    (origin destination : point) (stops : option (list point))
    (vehicle_type departure_time : string) : list raw_route :=
  try_except
    (match tomtom clients with
     | None => Ok []
     | Some c =>
         rs ← tomtom_get_route c origin destination stops
                vehicle_type departure_time;
         Ok (map (fun ir : nat * tomtom_route =>
                    {| raw_provider := "tomtom";
                       route_id := "tt-" +:+ pretty ir.1;
                       summary := default (VDict ∅) (tt_summary ir.2);
                       raw_geometry := tt_points ir.2;
                       raw := tt_raw ir.2 |})
                 (enumerate rs))
     end)
    (fun _ => []).

Definition _get_google_routes (clients : api_clients)
    (origin destination : point) (stops : option (list point))
    (vehicle_type departure_time : string) : list raw_route :=
  try_except
    (match google_maps clients with
     | None => Ok []
     | Some get_directions =>
         rs ← get_directions origin destination stops departure_time;
         exc_mapM (fun ir : nat * google_route =>
                 in_traffic ← as_num (gm_duration_in_traffic ir.2);
                 plain ← as_num (gm_duration ir.2);
                 Ok {| raw_provider := "google";
                       route_id := "gm-" +:+ pretty ir.1;
                       summary :=
                         summary_dict (gm_distance ir.2) (gm_duration ir.2)
                           (VNum (Qmax 0 (in_traffic - plain)));
                       raw_geometry := gm_polyline ir.2;
                       raw := gm_raw ir.2 |})
              (enumerate rs)
     end)
    (fun _ => []).

Definition _get_osrm_routes (clients : api_clients)
    (origin destination : point) (stops : option (list point))
    (vehicle_type : string) : list raw_route :=
  try_except
    (match osrm clients with
     | None => Ok []
     | Some get_route =>
         rs ← get_route origin destination stops;
         Ok (map (fun ir : nat * osrm_route =>
                    {| raw_provider := "osrm";
                       route_id := "osrm-" +:+ pretty ir.1;
                       summary :=
                         summary_dict (osrm_distance ir.2) (osrm_duration ir.2)
                           (VNum 0);
                       raw_geometry := osrm_geometry ir.2;
                       raw := osrm_raw ir.2 |})
                 (enumerate rs))
     end)
    (fun _ => []).

(** *** Bounding area, traffic and weather context *)

Definition _get_route_area (origin destination : point)
    (stops : option (list point)) : list point :=
  let points := [origin; destination] ++ default [] stops in
  let padding := 0.05 in
  let lats := map fst points in
  let lngs := map snd points in
  let min_lat := py_min (hd 0 lats) (tl lats) - padding in
  let max_lat := py_max (hd 0 lats) (tl lats) + padding in
  let min_lng := py_min (hd 0 lngs) (tl lngs) - padding in
  let max_lng := py_max (hd 0 lngs) (tl lngs) + padding in
  [(min_lat, min_lng); (min_lat, max_lng); (max_lat, max_lng); (max_lat, min_lng)].

Definition status_dict (st msg : string) : gmap string pyval :=
  <["status" := VStr st]> (<["message" := VStr msg]> ∅).

Definition _get_traffic_data (clients : api_clients) (area : list point)
  : pyval :=
  try_except
    (match tomtom clients with
     | Some c => get_traffic_flow c area
     | None => Ok (VDict (status_dict "demo" "Demo mode - no real traffic data"))
     end)
    (fun e => VDict (status_dict "error" (str_exn e))).

Definition sum_Q (l : list Q) : Q := fold_left Qplus l 0.

Definition _get_weather_data (clients : api_clients) (area : list point)
  : pyval :=
  try_except
    (match aqicn clients with
     | Some get_air_quality =>
         let n := inject_Z (Z.of_nat (length area)) in
         let center_lat := sum_Q (map fst area) / n in
         let center_lng := sum_Q (map snd area) / n in
         get_air_quality (center_lat, center_lng)
     | None =>
         Ok (VDict (<["data" := VDict {["aqi" := VNum 45]}]>
                      (status_dict "demo" "Demo mode")))
     end)
    (fun e => VDict (status_dict "error" (str_exn e))).

Record condition_summary := {
  cs_status : string;
  cs_description : string;
  cs_average_flow : option string;
  cs_aqi : option Q
}.

Definition _summarize_traffic (traffic_data : pyval) : exc condition_summary :=
  st ← get_default traffic_data "status" VNone;
  if eq_str st "error" then
    Ok {| cs_status := "unknown"; cs_description := "Traffic data unavailable";
          cs_average_flow := None; cs_aqi := None |}
  else if eq_str st "demo" then
    Ok {| cs_status := "normal";
          cs_description := "Normal traffic conditions (demo mode)";
          cs_average_flow := None; cs_aqi := None |}
  else
    Ok {| cs_status := "normal"; cs_description := "Normal traffic conditions";
          cs_average_flow := Some "moderate"; cs_aqi := None |}.

Definition _summarize_weather (weather_data : pyval) : exc condition_summary :=
  st ← get_default weather_data "status" VNone;
  if eq_str st "error" then
    Ok {| cs_status := "unknown"; cs_description := "Weather data unavailable";
          cs_average_flow := None; cs_aqi := None |}
  else
    has_data ← contains weather_data "data";
    d ← (if (has_data : bool) then getitem weather_data "data" else Ok VNone);
    match (d : pyval) with
    | VNone =>
        Ok {| cs_status := "good";
              cs_description := "Good weather conditions (demo mode)";
              cs_average_flow := None; cs_aqi := Some 45 |}
    | _ =>
        v ← get_default d "aqi" (VNum 45);
        aqi ← as_num v;
        if Qlt_le_dec aqi 50 then
          Ok {| cs_status := "good";
                cs_description := "Good air quality, no impact on transportation";
                cs_average_flow := None; cs_aqi := Some aqi |}
        else if Qlt_le_dec aqi 100 then
          Ok {| cs_status := "moderate";
                cs_description := "Moderate air quality, minimal impact";
                cs_average_flow := None; cs_aqi := Some aqi |}
        else
          Ok {| cs_status := "poor";
                cs_description := "Poor air quality, may affect visibility";
                cs_average_flow := None; cs_aqi := Some aqi |}
    end.

(** *** Normalisation and the placeholder emissions model *)

Definition normalize_route (r : raw_route) : exc route :=
  len ← get_default (summary r) "lengthInMeters" (VNum 0);
  time ← get_default (summary r) "travelTimeInSeconds" (VNum 0);
  delay ← get_default (summary r) "trafficDelayInSeconds" (VNum 0);
  Ok {| rid := route_id r; provider := raw_provider r;
        distance_meters := len; duration_seconds := time;
        traffic_delay_seconds := delay;
        geometry := raw_geometry r; raw_data := raw r;
        emissions_kg_co2 := None; score := None; recommendation := None |}.

Definition _normalize_routes (route_lists : list (list raw_route))
  : exc (list route) :=
  exc_mapM normalize_route (concat route_lists).

Definition emission_rate (vehicle_type : string) : Q :=
  if String.eqb vehicle_type "delivery_van" then 0.2
  else if String.eqb vehicle_type "cargo_truck" then 0.5
  else if String.eqb vehicle_type "electric_van" then 0.05
  else 0.2.

Definition _calculate_emissions (routes : list route) (vehicle_type : string)
  : exc (list route) :=
  exc_mapM (fun r =>
          d ← as_num (distance_meters r);
          let distance_km := d / 1000 in
          let emissions_kg := distance_km * emission_rate vehicle_type in
          Ok (set_emissions r (py_round2 emissions_kg)))
       routes.

(** *** Result envelope *)

Record query := {
  q_origin : point;
  q_destination : point;
  q_stops : option (list point);
  q_vehicle_type : string;
  q_optimization_criteria : string
}.

Record metadata := {
  traffic_conditions : option condition_summary;
  weather_conditions : option condition_summary;
  route_count : option nat;
  error_details : option string;
  generated_at : string
}.

Record route_result := {
  status : string;
  message : option string;
  query_echo : option query;
  routes : list route;
  meta : metadata
}.

(** The dict returned by the [except] branch. *)
Definition error_result (generated : string) (e : exn) : route_result :=
  {| status := "error"; message := Some (str_exn e); query_echo := None;
     routes := [];
     meta := {| traffic_conditions := None; weather_conditions := None;
                route_count := None; error_details := Some (str_exn e);
                generated_at := generated |} |}.

(** The optimizer object: [api_clients], [cache] and [cache_ttl]. *)
Record optimizer := {
  clients : api_clients;
  cache : gmap string (cache_entry route_result);
  cache_ttl : Q
}.

(** [RouteOptimizer.__init__] *)
Definition init (api : api_clients) : optimizer :=
  {| clients := api; cache := ∅; cache_ttl := 600 |}.

(** Readings of the clock during one call: [time.time()] at the cache
    lookup and at the cache store, and [datetime.now().isoformat()]. *)
Record clock := {
  t_lookup : Q;
  t_store : Q;
  iso_now : string
}.

(** *** Dummy routes and the orchestrator

    [coord_str] is [str()] on a coordinate, as used in the cache key.
    [haversine_distance] is the nested function of [_create_dummy_routes];
    it is built from [math.sin], [math.cos], [math.atan2] and [math.sqrt],
    which have no rational counterpart, and is taken as given.  It
    returns a number or raises: [math.sqrt(1 - a)] is a [ValueError] when
    rounding lifts [a] above 1, which happens for some nearly antipodal
    points. *)
Section Orchestrator.
Variable coord_str : Q -> string.
Variable haversine_distance : Q -> Q -> Q -> Q -> exc Q.

Definition route_variants : list (string * Q * Q) :=
  [("Fastest Route", 1.0, 1.0);
   ("Shortest Route", 0.95, 1.1);
   ("Eco-Friendly Route", 1.05, 1.05)].

Definition dummy_route (origin destination : point) (base_distance : Q)
    (iv : nat * (string * Q * Q)) : raw_route :=
  let '(i, (name, distance_factor, time_factor)) := iv in
  let distance := py_int (base_distance * distance_factor) in
  let duration :=
    py_int ((inject_Z distance / 1000) * 3600 / 40 * time_factor) in
  {| raw_provider := "demo";
     route_id := "demo-" +:+ pretty i;
     summary :=
       summary_dict (VNum (inject_Z distance)) (VNum (inject_Z duration))
         (VNum (inject_Z (Z.max 0 (py_int (inject_Z duration * 0.1)))));
     raw_geometry := [origin; destination];
     raw := VDict {["route_name" := VStr name]} |}.

Definition _create_dummy_routes (origin destination : point)
    (stops : option (list point)) : exc (list raw_route) :=
  base_distance ←
    haversine_distance origin.1 origin.2 destination.1 destination.2;
  Ok (map (dummy_route origin destination base_distance)
          (enumerate route_variants)).

(** The [try] block of [optimize_route]; the result comes with the cache
    as the call leaves it. *)
Definition optimize_route_body (self : optimizer) (clk : clock)
    (origin destination : point) (stops : option (list point))
    (vehicle_type departure_time optimization_criteria : string)
    (max_alternatives : Z)
  : exc (route_result * gmap string (cache_entry route_result)) :=
  let cache_key :=
    _generate_cache_key coord_str origin destination stops
      vehicle_type optimization_criteria in
  match _get_from_cache (cache self) (cache_ttl self) (t_lookup clk) cache_key with
  | Some cached_result => Ok (cached_result, cache self)
  | None =>
      let route_area := _get_route_area origin destination stops in
      let traffic_data := _get_traffic_data (clients self) route_area in
      let weather_data := _get_weather_data (clients self) route_area in
      let tomtom_routes :=
        _get_tomtom_routes (clients self) origin destination stops
          vehicle_type departure_time in
      let gmaps_routes :=
        _get_google_routes (clients self) origin destination stops
          vehicle_type departure_time in
      let osrm_routes :=
        _get_osrm_routes (clients self) origin destination stops
          vehicle_type in
      all_routes ←
        match tomtom_routes, gmaps_routes, osrm_routes with
        | [], [], [] =>
            dummy_routes ← _create_dummy_routes origin destination stops;
            _normalize_routes [dummy_routes]
        | _, _, _ =>
            _normalize_routes [tomtom_routes; gmaps_routes; osrm_routes]
        end;
      routes_with_emissions ← _calculate_emissions all_routes vehicle_type;
      scored_routes ← _score_routes routes_with_emissions optimization_criteria;
      let final_routes := slice_to scored_routes max_alternatives in
      traffic ← _summarize_traffic traffic_data;
      weather ← _summarize_weather weather_data;
      let result :=
        {| status := "success"; message := None;
           query_echo :=
             Some {| q_origin := origin; q_destination := destination;
                     q_stops := stops; q_vehicle_type := vehicle_type;
                     q_optimization_criteria := optimization_criteria |};
           routes := final_routes;
           meta := {| traffic_conditions := Some traffic;
                      weather_conditions := Some weather;
                      route_count := Some (length final_routes);
                      error_details := None;
                      generated_at := iso_now clk |} |} in
      Ok (result, _add_to_cache (cache self) (t_store clk) cache_key result)
  end.

Definition optimize_route (self : optimizer) (clk : clock)
    (origin destination : point) (stops : option (list point))
    (vehicle_type departure_time optimization_criteria : string)
    (max_alternatives : Z) : route_result * optimizer :=
  let '(result, cache') :=
    try_except
      (optimize_route_body self clk origin destination stops vehicle_type
         departure_time optimization_criteria max_alternatives)
      (fun e => (error_result (iso_now clk) e, cache self)) in
  (result,
   {| clients := clients self; cache := cache'; cache_ttl := cache_ttl self |}).

End Orchestrator.

(** *** Address entry point

    [geocode] is [self.api_clients["google_maps"].geocode] followed by the
    reading of [result[0]["geometry"]["location"]]: an exception of either,
    no result ([None]), or the coordinates found. *)
Section AddressEntry.
Variable coord_str : Q -> string.
Variable haversine_distance : Q -> Q -> Q -> Q -> exc Q.
Variable geocode : string -> exc (option point).

Definition geocoding_map : gmap string point :=
  <["Chennai Central Railway Station" := (13.0827, 80.2707)]>
    (<["Chennai International Airport" := (12.9941, 80.1709)]> ∅).

Definition _geocode_address (clients : api_clients) (address : string)
  : point :=
  match geocoding_map !! address with
  | Some coords => coords
  | None =>
      let found :=
        try_except
          (match google_maps clients with
           | Some _ => geocode address
           | None => Ok None
           end)
          (fun _ => None) in
      match found with
      | Some coords => coords
      | None => (13.0827, 80.2707)
      end
  end.

(** [calculate_routes]; its own [except] branch is unreachable, because
    neither [_geocode_address] nor [optimize_route] raises. *)
Definition calculate_routes (self : optimizer) (clk : clock)
    (origin destination vehicle_type optimization_priority : string)
    (stops : option (list string)) : route_result * optimizer :=
  let origin_coords := _geocode_address (clients self) origin in
  let destination_coords := _geocode_address (clients self) destination in
  let stop_coords :=
    map (_geocode_address (clients self)) (default [] stops) in
  optimize_route coord_str haversine_distance self clk
    origin_coords destination_coords
    (match stop_coords with [] => None | _ :: _ => Some stop_coords end)
    vehicle_type "now" optimization_priority 3.

End AddressEntry.

End RouteOptimizer.

(** ** emissions/emissions_calculator.py *)

Module EmissionsCalculator.

Local Open Scope Q_scope.

Definition factors (rate efficiency payload : Q) : gmap string pyval :=
  <["base_emission_rate" := VNum rate]>
    (<["fuel_efficiency" := VNum efficiency]>
       (<["payload_factor" := VNum payload]> ∅)).

(** The table returned by [_load_emission_factors] when no configuration
    file is found. *)
Definition default_table : gmap string pyval :=
  <["Delivery Van" := VDict (factors 275 12 0.05)]>
    (<["Box Truck" := VDict (factors 450 8 0.08)]>
       (<["Semi-Truck" := VDict (factors 900 6 0.1)]>
          (<["Electric Vehicle" := VDict (factors 50 100 0.03)]> ∅))).

Definition default_emission_factors : pyval := VDict default_table.

(** [weather_conditions.lower()] *)
Definition str_lower (v : pyval) : exc string :=
  match v with
  | VStr s => Ok (lower s)
  | _ => Raise (AttributeError "object has no attribute 'lower'")
  end.

(** The [try] block of [calculate_emissions].  [emission_factors] is
    [self.emission_factors], which may have been read from a JSON file. *)
Definition calculate_emissions_body (emission_factors distance_miles : pyval)
    (vehicle_type : string)
    (avg_speed_mph gradient payload_kg traffic_congestion
       weather_conditions : pyval) : exc Q :=
  known ← contains emission_factors vehicle_type;
  let vehicle_type := if (known : bool) then vehicle_type else "Delivery Van" in
  vehicle_factors ← getitem emission_factors vehicle_type;
  miles ← as_num distance_miles;
  let distance_km := miles * 1.60934 in
  rate_v ← getitem vehicle_factors "base_emission_rate";
  rate ← as_num rate_v;
  let base_emissions := distance_km * rate in
  speed ← as_num avg_speed_mph;
  let speed_factor :=
    if Qlt_le_dec speed 30 then 1.2
    else if Qlt_le_dec 75 speed then 1.15
    else 1.0 in
  g ← as_num gradient;
  let gradient_factor := 1.0 + (Qabs g * 0.02) in
  payload ← as_num payload_kg;
  pf_v ← getitem vehicle_factors "payload_factor";
  pf ← as_num pf_v;
  let payload_factor := 1.0 + (payload / 100 * pf) in
  congestion ← as_num traffic_congestion;
  let traffic_factor := 1.0 + (congestion * 0.3) in
  w ← str_lower weather_conditions;
  let weather_factor :=
    if String.eqb w "rain" then 1.05
    else if String.eqb w "snow" then 1.1
    else if String.eqb w "strong wind" then 1.08
    else 1.0 in
  let total_emissions_g :=
    base_emissions * speed_factor * gradient_factor * payload_factor *
    traffic_factor * weather_factor in
  let total_emissions_kg := total_emissions_g / 1000 in
  Ok total_emissions_kg.

(** The handler evaluates [distance_miles * 0.4], which raises in turn
    when the distance is not a number. *)
Definition calculate_emissions (emission_factors distance_miles : pyval)
    (vehicle_type : string)
    (avg_speed_mph gradient payload_kg traffic_congestion
       weather_conditions : pyval) : exc Q :=
  try_catch
    (calculate_emissions_body emission_factors distance_miles vehicle_type
       avg_speed_mph gradient payload_kg traffic_congestion weather_conditions)
    (fun _ => miles ← as_num distance_miles; Ok (miles * 0.4)).

(** [compare_route_emissions].  A route is a dict with a ['distance'] key
    and optional keys; [fmt2] is the [:.2f] formatting of a float.  The
    positional call hands [route.get('traffic_congestion', 0)] to
    [payload_kg] and [route.get('weather_conditions', 'normal')] to
    [traffic_congestion]; [weather_conditions] keeps its default. *)
Section Compare.
Variable fmt2 : Q -> string.

Definition compare_route (emission_factors : pyval) (vehicle_type : string)
    (route : gmap string pyval) : exc (gmap string pyval) :=
  distance ← getitem (VDict route) "distance";
  emissions ←
    calculate_emissions emission_factors distance vehicle_type
      (default (VNum 55) (route !! "avg_speed"))
      (default (VNum 0) (route !! "gradient"))
      (default (VNum 0) (route !! "traffic_congestion"))
      (default (VStr "normal") (route !! "weather_conditions"))
      (VStr "normal");
  Ok (<["emissions_text" := VStr (fmt2 emissions +:+ " kg CO2")]>
        (<["emissions" := VNum emissions]> route)).

Definition compare_route_emissions (emission_factors : pyval)
    (routes : list (gmap string pyval)) (vehicle_type : string)
  : exc (list (gmap string pyval)) :=
  exc_mapM (compare_route emission_factors vehicle_type) routes.

End Compare.

End EmissionsCalculator.

(** ** prototype.py *)

Module Prototype.

Local Open Scope Q_scope.

(** [settings._config]: [None] until [load_config] has run; otherwise the
    [emission_factors] table of the configuration file. *)
Definition settings : Type := option (gmap string pyval).

(** [settings.get_emission_factor(fuel_type)] *)
Definition get_emission_factor (config : settings) (fuel_type : pyval)
  : exc pyval :=
  match config with
  | None => Raise (RuntimeError "Configuration not loaded. Call load_config() first.")
  | Some emission_factors =>
      match fuel_type with
      | VStr f => Ok (default (VNum 0.0) (emission_factors !! f))
      | VDict _ => Raise (TypeError "unhashable type: 'dict'")
      | _ => Ok (VNum 0.0)
      end
  end.

Definition calculate_emissions_body (config : settings)
    (distance_meters : pyval) (vehicle_config : pyval) : exc Q :=
  dm ← as_num distance_meters;
  let distance_km := dm / 1000.0 in
  combustion ← contains vehicle_config "fuel_efficiency_l_per_100km";
  if (combustion : bool) then
    eff_v ← getitem vehicle_config "fuel_efficiency_l_per_100km";
    eff ← as_num eff_v;
    let liters_used := (distance_km * eff) / 100.0 in
    fuel_type ← get_default vehicle_config "fuel_type" (VStr "diesel");
    ef_v ← get_emission_factor config fuel_type;
    emission_factor ← as_num ef_v;
    Ok (liters_used * emission_factor)
  else
    electric ← contains vehicle_config "energy_efficiency_kwh_per_100km";
    if (electric : bool) then
      eff_v ← getitem vehicle_config "energy_efficiency_kwh_per_100km";
      eff ← as_num eff_v;
      let kwh_used := (distance_km * eff) / 100.0 in
      ef_v ← get_emission_factor config (VStr "electric");
      emission_factor ← as_num ef_v;
      Ok (kwh_used * emission_factor)
    else
      Ok 0.0.

Definition calculate_emissions (config : settings)
    (distance_meters : pyval) (vehicle_config : pyval) : Q :=
  try_except (calculate_emissions_body config distance_meters vehicle_config)
    (fun _ => 0.0).

End Prototype.

(** ** Notions used to state the properties *)

Import RouteOptimizer.

Local Open Scope Q_scope.

(** *** Ranking *)

(** A route with the keys written by the scorer removed. *)
Definition unscored (r : route) : route :=
  {| rid := rid r; provider := provider r;
     distance_meters := distance_meters r;
     duration_seconds := duration_seconds r;
     traffic_delay_seconds := traffic_delay_seconds r;
     geometry := geometry r; raw_data := raw_data r;
     emissions_kg_co2 := emissions_kg_co2 r;
     score := None; recommendation := None |}.

(** [a] may precede [b] in a ranking by descending score. *)
Definition desc_by_score (a b : route) : Prop :=
  ∃ x y, score a = Some x ∧ score b = Some y ∧ (y <= x)%Z.

Definition has_score (z : Z) (r : route) : Prop := score r = Some z.

#[export] Instance has_score_dec z r : Decision (has_score z r).
Proof. unfold has_score. apply _. Defined.

Definition key_ge {A} (x y : Z * A) : Prop := (y.1 <= x.1)%Z.

(** The routes carry numeric durations [ds] and emissions [es]. *)
Definition typed_as (routes : list route) (ds es : list Q) : Prop :=
  map duration_seconds routes = map VNum ds ∧
  map emissions_kg_co2 routes = map Some es.

(** The decorated list that [_score_routes] hands to [sorted]. *)
Definition decorate (routes : list route) (criteria : string)
    (ds es : list Q) : list (Z * route) :=
  let w := weights criteria in
  let min_time := py_min (hd 0 ds) (tl ds) in
  let max_time := py_max (hd 0 ds) (tl ds) in
  let time_range := Qmax 1 (max_time - min_time) in
  let min_emissions := py_min (hd 0 es) (tl es) in
  let max_emissions := py_max (hd 0 es) (tl es) in
  let emissions_range := Qmax 0.1 (max_emissions - min_emissions) in
  map (score_one w.1 w.2 min_time time_range min_emissions emissions_range)
      (zip (zip routes ds) es).

(** *** The composite score *)

Definition is_min_of (m : Q) (l : list Q) : Prop :=
  Exists (Qeq m) l ∧ Forall (Qle m) l.

Definition is_max_of (m : Q) (l : list Q) : Prop :=
  Exists (Qeq m) l ∧ Forall (fun x => x <= m) l.

(** [100 × (w_time × time_score + w_emissions × emissions_score)] for a
    route of duration [d] and emissions [e] in a candidate set whose
    extreme durations are [tmin], [tmax] and extreme emissions [emin],
    [emax]. *)
Definition weighted_score (w : Q * Q) (tmin tmax emin emax d e : Q) : Q :=
  let time_score := 1 - (d - tmin) / Qmax 1 (tmax - tmin) in
  let emissions_score := 1 - (e - emin) / Qmax 0.1 (emax - emin) in
  100 * (w.1 * time_score + w.2 * emissions_score).

Definition priority_weights (criteria : string) (w : Q * Q) : Prop :=
  (criteria = "time" → w = (0.8, 0.2)) ∧
  (criteria = "emissions" → w = (0.2, 0.8)) ∧
  (criteria ≠ "time" → criteria ≠ "emissions" → w = (0.5, 0.5)).

(** Python evaluates the weighted score, and the distance and duration
    of a dummy route, in binary floating point before [int()] is applied.
    The float differs from the exact value by the accumulated rounding
    error, which for scores (at most 100) and for distances and durations
    on the globe (below 10^8) stays far below [float_slack]. *)
Definition float_slack : Q := 1 # 1000000.

(** [s] is what [conv] makes of a value that equals [y] up to
    floating-point rounding. *)
Definition within_rounding (conv : Q → Z) (y : Q) (s : Z) : Prop :=
  ∃ v, Qabs (v - y) <= float_slack ∧ s = conv v.

(** The scorer returns the candidates, each with the weighted score, as
    computed up to floating-point rounding, turned into an integer by
    [rounding]. *)
Definition scores_with (rounding : Q → Z) (routes : list route)
    (criteria : string) : Prop :=
  ∀ ds es tmin tmax emin emax,
    map duration_seconds routes = map VNum ds →
    map emissions_kg_co2 routes = map Some es →
    is_min_of tmin ds → is_max_of tmax ds →
    is_min_of emin es → is_max_of emax es →
    ∃ w out,
      priority_weights criteria w ∧
      _score_routes routes criteria = Ok out ∧
      map unscored out ≡ₚ map unscored routes ∧
      Forall (λ r, ∃ d e s,
                duration_seconds r = VNum d ∧
                emissions_kg_co2 r = Some e ∧
                score r = Some s ∧
                within_rounding rounding
                  (weighted_score w tmin tmax emin emax d e) s)
             out.

Definition candidate (name : string) (duration emissions : Q) : route :=
  {| rid := name; provider := "demo";
     distance_meters := VNum 0; duration_seconds := VNum duration;
     traffic_delay_seconds := VNum 0; geometry := []; raw_data := VNone;
     emissions_kg_co2 := Some emissions;
     score := None; recommendation := None |}.

(** Durations 0 s, 5 s and 8 s, equal emissions of 1 kg. *)
Definition three_candidates : list route :=
  [candidate "r0" 0 1; candidate "r1" 5 1; candidate "r2" 8 1].

(** Four candidates of which "b" and "d" tie. *)
Definition tied_candidates : list route :=
  [candidate "a" 8 1; candidate "b" 5 1; candidate "c" 0 1; candidate "d" 5 1].

(** *** The factor model *)

Definition speed_factor (avg_speed : Q) : Q :=
  if Qlt_le_dec avg_speed 30 then 1.2
  else if Qlt_le_dec 75 avg_speed then 1.15
  else 1.

Definition eq_nocase (a b : string) : bool := String.eqb (lower a) (lower b).

Definition weather_factor (weather : string) : Q :=
  if eq_nocase weather "rain" then 1.05
  else if eq_nocase weather "snow" then 1.10
  else if eq_nocase weather "strong wind" then 1.08
  else 1.

(** The table row of a vehicle type, or that of "Delivery Van" when the
    type is unknown. *)
Definition profile_row (table : gmap string pyval) (vehicle_type : string)
  : option pyval :=
  match table !! vehicle_type with
  | Some row => Some row
  | None => table !! "Delivery Van"
  end.

(** A call of the factor-model estimator whose table provides the rate and
    the payload factor of the vehicle (or of "Delivery Van") as numbers,
    with numeric speed, gradient, payload and congestion and a weather
    string. *)
Definition well_formed_call (ef : pyval) (vehicle_type : string)
    (avg_speed_mph gradient payload_kg traffic_congestion
       weather_conditions : pyval) : Prop :=
  ∃ table row rate pf speed g payload congestion w,
    ef = VDict table ∧
    profile_row table vehicle_type = Some (VDict row) ∧
    row !! "base_emission_rate" = Some (VNum rate) ∧
    row !! "payload_factor" = Some (VNum pf) ∧
    avg_speed_mph = VNum speed ∧ gradient = VNum g ∧
    payload_kg = VNum payload ∧ traffic_congestion = VNum congestion ∧
    weather_conditions = VStr w.

(** *** The cache key *)

(** A string that is empty or begins with one of the separators of the
    key. *)
Definition sep_start (r : string) : Prop :=
  match r with
  | EmptyString => True
  | String c _ => c = ":"%char ∨ c = "-"%char
  end.

(** No printed coordinate continues another one across a separator.  The
    decimal [str()] of a Python int or float has this property: a "-"
    occurs only in front or right after an exponent "e", a ":" nowhere. *)
Definition self_delimiting {coord} (str : coord → string) : Prop :=
  ∀ x y r r',
    str x +:+ r = str y +:+ r' → sep_start r → sep_start r' →
    x = y ∧ r = r'.

Fixpoint all_digits (s : string) : Prop :=
  match s with
  | EmptyString => True
  | String c t => (∃ n : N, c = pretty_N_char n) ∧ all_digits t
  end.

(** *** Orchestration *)

Definition no_clients : api_clients :=
  {| tomtom := None; google_maps := None; osrm := None; aqicn := None |}.

Definition tomtom_only (c : tomtom_client) : api_clients :=
  {| tomtom := Some c; google_maps := None; osrm := None; aqicn := None |}.

(** A TomTom client whose traffic call times out and whose routing response
    holds one route with ["summary": null]. *)
Definition null_summary_tomtom : tomtom_client :=
  {| get_traffic_flow := λ _, Raise (ProviderError "timed out");
     tomtom_get_route := λ _ _ _ _ _,
       Ok [{| tt_summary := Some VNone; tt_points := []; tt_raw := VNone |}] |}.




(** Sample instances for the concrete runs below.  A coordinate is printed
    as numerator/denominator; [haversine_chennai] is the great-circle
    distance, in metres, between Chennai Central (13.0827, 80.2707) and
    Chennai airport (12.9941, 80.1709). *)
Definition sample_coord_str (q : Q) : string :=
  pretty (Qnum q) +:+ "/" +:+ pretty (Z.pos (Qden q)).

Definition haversine_chennai (lat1 lon1 lat2 lon2 : Q) : exc Q :=
  Ok 14626.7024.


Definition noon : clock :=
  {| t_lookup := 1000; t_store := 1001; iso_now := "2024-01-01T12:00:00" |}.

(** A second call, 499 s after [noon] stored its result. *)
Definition later : clock :=
  {| t_lookup := 1500; t_store := 1501; iso_now := "2024-01-01T12:08:20" |}.

Definition chennai_central : point := (13.0827, 80.2707).
Definition chennai_airport : point := (12.9941, 80.1709).

(** *** The pipeline stages *)

(** The recommendation label that goes with a score. *)
Definition tier_of (s : Z) (rec : option string) : Prop :=
  (rec = Some "Highly Recommended"%string ↔ (80 <= s)%Z) ∧
  (rec = Some "Recommended"%string ↔ (60 <= s < 80)%Z) ∧
  (rec = Some "Alternative Option"%string ↔ (s < 60)%Z).

(** [r] is the normalized form of the provider route [rr]: identifier,
    provider, geometry and raw data are copied, the three summary figures
    default to 0 when their key is missing, and the keys of the later
    stages are absent. *)
Definition normalized_from (rr : raw_route) (r : route) : Prop :=
  ∃ d, summary rr = VDict d ∧
    rid r = route_id rr ∧ provider r = raw_provider rr ∧
    distance_meters r = default (VNum 0) (d !! "lengthInMeters") ∧
    duration_seconds r = default (VNum 0) (d !! "travelTimeInSeconds") ∧
    traffic_delay_seconds r = default (VNum 0) (d !! "trafficDelayInSeconds") ∧
    geometry r = raw_geometry rr ∧ raw_data r = raw rr ∧
    emissions_kg_co2 r = None ∧ score r = None ∧ recommendation r = None.

(** Kilograms of CO2 per kilometre charged by the placeholder model. *)
Definition vehicle_rate (vehicle_type : string) (rate : Q) : Prop :=
  (vehicle_type = "cargo_truck" → rate = 0.5) ∧
  (vehicle_type = "electric_van" → rate = 0.05) ∧
  (vehicle_type ≠ "cargo_truck" → vehicle_type ≠ "electric_van" → rate = 0.2).

(** [rr] is the provider route built from the Google route [r]: the
    traffic delay is the excess of the duration in traffic over the plain
    duration, and never negative. *)
Definition google_raw (r : google_route) (rr : raw_route) : Prop :=
  ∃ t tt delay,
    gm_duration r = VNum t ∧ gm_duration_in_traffic r = VNum tt ∧
    raw_provider rr = "google"%string ∧
    summary rr = summary_dict (gm_distance r) (VNum t) (VNum delay) ∧
    raw_geometry rr = gm_polyline r ∧
    0 <= delay ∧ tt - t <= delay ∧ (delay == 0 ∨ delay == tt - t).

(** [r'] is the route dict [r] with the flat estimate of 0.4 kg per mile
    stored under ["emissions"] and its text under ["emissions_text"]. *)
Definition flat_estimate (fmt2 : Q → string) (r r' : gmap string pyval)
  : Prop :=
  ∃ d, r !! "distance" = Some (VNum d) ∧
       r' !! "emissions" = Some (VNum (d * 0.4)) ∧
       r' !! "emissions_text" = Some (VStr (fmt2 (d * 0.4) +:+ " kg CO2")) ∧
       ∀ k, k ≠ "emissions"%string → k ≠ "emissions_text"%string →
            r' !! k = r !! k.

(** No geocoding service answers: the Google client is not configured, or
    its geocoder finds nothing or raises for every address. *)
Definition no_geocoding (geocode : string → exc (option point))
    (clients : api_clients) : Prop :=
  google_maps clients = None ∨
  ∀ a, geocode a = Ok None ∨ ∃ e, geocode a = Raise e.

(** *** Sample data for the concrete runs *)

(** A normalized route with the given distance and duration. *)
Definition leg (name : string) (meters seconds : pyval) : route :=
  {| rid := name; provider := "osrm";
     distance_meters := meters; duration_seconds := seconds;
     traffic_delay_seconds := VNum 0; geometry := []; raw_data := VNone;
     emissions_kg_co2 := None; score := None; recommendation := None |}.

(** A provider route with the given summary. *)
Definition bare_route (name : string) (s : pyval) : raw_route :=
  {| raw_provider := "tomtom"; route_id := name; summary := s;
     raw_geometry := []; raw := VNone |}.

(** An air-quality client that answers with a text in place of the data
    object. *)
Definition keyless_aqicn : api_clients :=
  {| tomtom := None; google_maps := None; osrm := None;
     aqicn := Some (λ _, Ok (VDict (<["status" := VStr "ok"]>
                                      {["data" := VStr "Invalid key"]}))) |}.

Definition failing_tomtom : tomtom_client :=
  {| get_traffic_flow := λ _, Raise (ProviderError "timed out");
     tomtom_get_route := λ _ _ _ _ _, Raise (ProviderError "timed out") |}.

Definition two_osrm_routes : list osrm_route :=
  [{| osrm_distance := VNum 15200; osrm_duration := VNum 1500;
      osrm_geometry := []; osrm_raw := VNone |};
   {| osrm_distance := VNum 14900; osrm_duration := VNum 1620;
      osrm_geometry := []; osrm_raw := VNone |}].

Definition tomtom_down_osrm_up : api_clients :=
  {| tomtom := Some failing_tomtom; google_maps := None;
     osrm := Some (λ _ _ _, Ok two_osrm_routes); aqicn := None |}.

(** A Google response whose second route reports its duration as text. *)
Definition google_one_bad : list google_route :=
  [{| gm_distance := VNum 15000; gm_duration := VNum 1500;
      gm_duration_in_traffic := VNum 1800; gm_polyline := [];
      gm_raw := VNone |};
   {| gm_distance := VNum 15500; gm_duration := VStr "25 mins";
      gm_duration_in_traffic := VNum 0; gm_polyline := [];
      gm_raw := VNone |}].

Definition google_only (rs : list google_route) : api_clients :=
  {| tomtom := None; google_maps := Some (λ _ _ _ _, Ok rs);
     osrm := None; aqicn := None |}.

(** * Properties *)

(** ** The built-ins *)

Section SortFacts.
Context {A : Type}.
Implicit Types (l : list (Z * A)) (k : Z) (a : A).

Lemma insert_desc_perm k a l : insert_desc k a l ≡ₚ (k, a) :: l.
Proof.
  induction l as [|[k' a'] t IH]; simpl; [done|].
  destruct (k <? k')%Z; [|done].
  rewrite IH. apply perm_swap.
Qed.

Lemma sorted_desc_perm l : sorted_desc l ≡ₚ l.
Proof.
  induction l as [|[k a] t IH]; simpl; [done|].
  by rewrite insert_desc_perm, IH.
Qed.

Lemma insert_desc_sorted k a l :
  StronglySorted key_ge l → StronglySorted key_ge (insert_desc k a l).
Proof.
  induction 1 as [|[k' a'] t Hs IH Hall]; simpl.
  - repeat constructor.
  - destruct (Z.ltb_spec k k') as [Hlt|Hge].
    + constructor; [done|].
      rewrite insert_desc_perm. constructor; [|done].
      unfold key_ge; simpl; lia.
    + constructor; [by constructor|].
      constructor; [unfold key_ge; simpl; lia|].
      eapply Forall_impl; [exact Hall|].
      intros [k2 a2]; unfold key_ge; simpl; lia.
Qed.

Lemma sorted_desc_sorted l : StronglySorted key_ge (sorted_desc l).
Proof.
  induction l as [|[k a] t IH]; simpl; [constructor|].
  by apply insert_desc_sorted.
Qed.

(** Inserting never moves an element past one with the same key. *)
Lemma insert_desc_stable z k a l :
  filter (λ x : Z * A, x.1 = z) (insert_desc k a l)
  = filter (λ x : Z * A, x.1 = z) ((k, a) :: l).
Proof.
  induction l as [|[k' a'] t IH]; simpl; [done|].
  destruct (Z.ltb_spec k k') as [Hlt|Hge]; [|done].
  rewrite filter_cons, IH, !filter_cons; simpl.
  repeat case_decide; subst; try done; lia.
Qed.

Lemma sorted_desc_stable z l :
  filter (λ x : Z * A, x.1 = z) (sorted_desc l)
  = filter (λ x : Z * A, x.1 = z) l.
Proof.
  induction l as [|[k a] t IH]; simpl; [done|].
  by rewrite insert_desc_stable, !filter_cons, IH.
Qed.

End SortFacts.

Lemma exc_mapM_ok {A B} (f : A → exc B) (l : list A) (ys : list B) :
  Forall2 (λ x y, f x = Ok y) l ys → exc_mapM f l = Ok ys.
Proof.
  induction 1 as [|x y l ys Hx _ IH]; simpl; [done|].
  by rewrite Hx, IH.
Qed.

Lemma map_eq_Forall2 {A B C} (f : A → C) (g : B → C) l k :
  map f l = map g k → Forall2 (λ x y, f x = g y) l k.
Proof.
  revert k. induction l as [|x l IH]; intros [|y k]; simpl; try done.
  intros [= Hxy Hlk]. constructor; auto.
Qed.

Lemma slice_to_nonneg {A} (l : list A) (n : Z) :
  (0 <= n)%Z → slice_to l n = take (Z.to_nat n) l.
Proof. intros Hn. unfold slice_to. by rewrite (proj2 (Z.leb_le 0 n) Hn). Qed.

#[export] Instance py_int_proper : Proper (Qeq ==> eq) py_int.
Proof.
  intros x y Hxy. unfold py_int.
  assert (Qle_bool 0 x = Qle_bool 0 y) as ->.
  { apply eq_true_iff_eq. rewrite !Qle_bool_iff. by rewrite Hxy. }
  destruct (Qle_bool 0 y); [by apply Qfloor_comp | by apply Qceiling_comp].
Qed.

Lemma py_min_spec x xs : is_min_of (py_min x xs) (x :: xs).
Proof.
  unfold py_min. revert x. induction xs as [|y xs IH]; intros x; simpl.
  - split; [by left | by repeat constructor; apply Qle_refl].
  - destruct (IH (Qmin x y)) as [Hex Hall]. split.
    + apply Exists_cons in Hex as [Hm|Hex].
      * destruct (Q.min_spec x y) as [[_ E]|[_ E]].
        -- left. by rewrite Hm, E.
        -- right. left. by rewrite Hm, E.
      * by right; right.
    + apply Forall_cons in Hall as [Hm Hall].
      repeat constructor; [| |done].
      * eapply Qle_trans; [exact Hm | apply Q.le_min_l].
      * eapply Qle_trans; [exact Hm | apply Q.le_min_r].
Qed.

Lemma py_max_spec x xs : is_max_of (py_max x xs) (x :: xs).
Proof.
  unfold py_max. revert x. induction xs as [|y xs IH]; intros x; simpl.
  - split; [by left | by repeat constructor; apply Qle_refl].
  - destruct (IH (Qmax x y)) as [Hex Hall]. split.
    + apply Exists_cons in Hex as [Hm|Hex].
      * destruct (Q.max_spec x y) as [[_ E]|[_ E]].
        -- right. left. by rewrite Hm, E.
        -- left. by rewrite Hm, E.
      * by right; right.
    + apply Forall_cons in Hall as [Hm Hall].
      repeat constructor; [| |done].
      * eapply Qle_trans; [apply Q.le_max_l | exact Hm].
      * eapply Qle_trans; [apply Q.le_max_r | exact Hm].
Qed.

Lemma is_min_of_unique m m' l : is_min_of m l → is_min_of m' l → m == m'.
Proof.
  intros [E1 A1] [E2 A2].
  apply Exists_exists in E1 as (x & Hx & Ex).
  apply Exists_exists in E2 as (y & Hy & Ey).
  rewrite Forall_forall in A1, A2.
  apply Qle_antisym.
  - rewrite Ey. by apply A1.
  - rewrite Ex. by apply A2.
Qed.

Lemma is_max_of_unique m m' l : is_max_of m l → is_max_of m' l → m == m'.
Proof.
  intros [E1 A1] [E2 A2].
  apply Exists_exists in E1 as (x & Hx & Ex).
  apply Exists_exists in E2 as (y & Hy & Ey).
  rewrite Forall_forall in A1, A2.
  apply Qle_antisym.
  - rewrite Ex. by apply A2.
  - rewrite Ey. by apply A1.
Qed.

(** Concrete order facts and extrema of literal lists. *)
Ltac q_order := vm_compute; first [reflexivity | discriminate].
Ltac find_elem :=
  first [ apply Exists_cons_hd; q_order | apply Exists_cons_tl; find_elem ].
Ltac extremum :=
  split;
  [ find_elem
  | repeat (apply Forall_cons; split; [q_order|]); apply Forall_nil; exact I ].

(** ** The scorer *)

Section Scorer.
Implicit Types (routes : list route) (criteria : string) (ds es : list Q).

Lemma typed_as_durations routes ds es :
  typed_as routes ds es → exc_mapM duration_of routes = Ok ds.
Proof.
  intros [Hd _]. apply exc_mapM_ok. apply map_eq_Forall2 in Hd.
  eapply Forall2_impl; [exact Hd|].
  intros r d Hr. unfold duration_of. by rewrite Hr.
Qed.

Lemma typed_as_emissions routes ds es :
  typed_as routes ds es → exc_mapM emissions_of routes = Ok es.
Proof.
  intros [_ He]. apply exc_mapM_ok. apply map_eq_Forall2 in He.
  eapply Forall2_impl; [exact He|].
  intros r e Hr. unfold emissions_of. by rewrite Hr.
Qed.

Lemma typed_as_zip routes ds es :
  typed_as routes ds es →
  map (λ c : route * Q * Q, c.1.1) (zip (zip routes ds) es) = routes ∧
  Forall (λ c : route * Q * Q,
            duration_seconds c.1.1 = VNum c.1.2 ∧
            emissions_kg_co2 c.1.1 = Some c.2)
         (zip (zip routes ds) es).
Proof.
  intros [Hd He]. revert ds es Hd He.
  induction routes as [|r routes IH]; intros [|d ds] [|e es]; simpl;
    try done.
  intros [= Hr Hd] [= Hr' He]. destruct (IH ds es Hd He) as [IH1 IH2].
  split; [by rewrite IH1|]. constructor; [done|exact IH2].
Qed.

Lemma nonempty_typed routes ds es :
  routes ≠ [] → typed_as routes ds es →
  ds = hd 0 ds :: tl ds ∧ es = hd 0 es :: tl es.
Proof.
  intros Hne [Hd He]. destruct routes; [done|].
  by destruct ds, es.
Qed.

(** On well-typed candidates the scorer does not raise, and returns the
    sorted decorated list without its keys. *)
Lemma score_routes_unfold routes criteria ds es :
  typed_as routes ds es →
  _score_routes routes criteria
  = Ok (map snd (sorted_desc (decorate routes criteria ds es))).
Proof.
  intros Ht. unfold _score_routes, decorate.
  destruct routes as [|r routes]; [done|].
  destruct (weights criteria) as [tw ew]; simpl fst; simpl snd.
  rewrite (typed_as_durations _ _ _ Ht). cbn [mbind exc_bind bind].
  by rewrite (typed_as_emissions _ _ _ Ht).
Qed.

Lemma score_one_snd tw ew a b c d (rde : route * Q * Q) :
  unscored (score_one tw ew a b c d rde).2 = unscored rde.1.1 ∧
  score (score_one tw ew a b c d rde).2 = Some (score_one tw ew a b c d rde).1.
Proof. by destruct rde as [[r x] y]. Qed.

Lemma decorate_unscored routes criteria ds es :
  typed_as routes ds es →
  map unscored (map snd (decorate routes criteria ds es)) = map unscored routes.
Proof.
  intros Ht. destruct (typed_as_zip _ _ _ Ht) as [Hz _].
  rewrite <- Hz at 2. unfold decorate. rewrite !map_map.
  apply map_ext. intros c. apply score_one_snd.
Qed.

Lemma decorate_keys routes criteria ds es :
  Forall (λ p : Z * route, score p.2 = Some p.1)
         (decorate routes criteria ds es).
Proof.
  unfold decorate. apply Forall_forall. intros p Hp.
  apply list_elem_of_In, in_map_iff in Hp as (c & <- & _).
  apply score_one_snd.
Qed.

Lemma sorted_by_key_desc (l : list (Z * route)) :
  Forall (λ p : Z * route, score p.2 = Some p.1) l →
  StronglySorted key_ge l →
  StronglySorted desc_by_score (map snd l).
Proof.
  intros Hk Hs. induction Hs as [|p l Hs IH Hall]; simpl; [constructor|].
  apply Forall_cons in Hk as [Hp Hk]. constructor; [by apply IH|].
  apply Forall_forall. intros r Hr.
  apply list_elem_of_In, in_map_iff in Hr as (q & <- & Hq).
  rewrite Forall_forall in Hall, Hk.
  exists p.1, q.1. split_and!; [done| |].
  - apply Hk. by apply list_elem_of_In.
  - apply Hall. by apply list_elem_of_In.
Qed.

Lemma filter_has_score z (l : list (Z * route)) :
  Forall (λ p : Z * route, score p.2 = Some p.1) l →
  filter (has_score z) (map snd l)
  = map snd (filter (λ x : Z * route, x.1 = z) l).
Proof.
  induction 1 as [|p l Hp _ IH]; simpl; [done|].
  rewrite !filter_cons, IH.
  destruct (decide (has_score z p.2)) as [Hz|Hz], (decide (p.1 = z)) as [Hz'|Hz'];
    unfold has_score in Hz; rewrite Hp in Hz; simplify_eq; done.
Qed.

Lemma weights_priority criteria : priority_weights criteria (weights criteria).
Proof.
  unfold priority_weights, weights.
  destruct (String.eqb_spec criteria "time") as [->|Ht].
  { split_and!; done. }
  destruct (String.eqb_spec criteria "emissions") as [->|He].
  { split_and!; done. }
  split_and!; done.
Qed.

Lemma Qmax_floor_pos a x : 0 < a → 0 < Qmax a x.
Proof. intros Ha. eapply Qlt_le_trans; [exact Ha | apply Q.le_max_l]. Qed.

(** The range floors keep both ranges positive, so the guarded divisions
    are always taken; the loop body computes the truncated weighted score. *)
Lemma score_value_formula tw ew mt mt' xt xt' me me' xe xe' d e :
  mt == mt' → xt == xt' → me == me' → xe == xe' →
  score_value tw ew mt (Qmax 1 (xt - mt)) me (Qmax 0.1 (xe - me)) d e
  = py_int (weighted_score (tw, ew) mt' xt' me' xe' d e).
Proof.
  intros E1 E2 E3 E4. unfold score_value, weighted_score.
  destruct (Qlt_le_dec 0 (Qmax 1 (xt - mt))) as [_|Hle].
  2:{ exfalso. apply (Qlt_not_le 0 (Qmax 1 (xt - mt))); [|done].
      by apply Qmax_floor_pos. }
  destruct (Qlt_le_dec 0 (Qmax 0.1 (xe - me))) as [_|Hle].
  2:{ exfalso. apply (Qlt_not_le 0 (Qmax 0.1 (xe - me))); [|done].
      by apply Qmax_floor_pos. }
  apply py_int_proper. simpl fst; simpl snd.
  rewrite E1, E2, E3, E4. ring.
Qed.

End Scorer.

Lemma within_rounding_exact (conv : Q → Z) y : within_rounding conv y (conv y).
Proof.
  exists y. split; [|done].
  assert (y - y == 0) as -> by ring. done.
Qed.

Lemma Qfloor_unique (n : Z) v :
  inject_Z n <= v → v < inject_Z n + 1 → Qfloor v = n.
Proof.
  intros Hlo Hhi.
  pose proof (Qfloor_le v) as Hf. pose proof (Qlt_floor v) as Hf1.
  assert (inject_Z (Qfloor v) < inject_Z (n + 1)) as H1.
  { rewrite inject_Z_plus. eapply Qle_lt_trans; [exact Hf|exact Hhi]. }
  assert (inject_Z n < inject_Z (Qfloor v + 1)) as H2.
  { eapply Qle_lt_trans; [exact Hlo|exact Hf1]. }
  rewrite <- Zlt_Qlt in H1, H2. lia.
Qed.

(** Rounding to the nearest integer takes every value in the upper half
    of a unit interval to the upper end. *)
Lemma py_round_upper_half (n : Z) v :
  inject_Z n + (1 # 2) < v → v < inject_Z n + 1 → py_round v = (n + 1)%Z.
Proof.
  intros Hlo Hhi. unfold py_round.
  rewrite (Qfloor_unique n v) by lra.
  assert (Qcompare (v - inject_Z n) (1 # 2) = Gt) as ->; [|done].
  apply Qgt_alt. lra.
Qed.

(** C1, as amended.  For every non-empty candidate set with numeric
    durations and emissions, and every priority, [_score_routes] returns
    the candidates with [score = int(v)], where [v] is
    [100 × (w_time × time_score + w_emissions × emissions_score)] as
    evaluated in floating point, that is the exact weighted sum up to
    rounding error: the sum is truncated towards zero, not rounded to the
    nearest integer.  The weights are (0.8, 0.2) for "time", (0.2, 0.8)
    for "emissions" and (0.5, 0.5) otherwise,
    [time_score = 1 - (duration - min_duration) / max(1, max_duration - min_duration)]
    and [emissions_score] likewise with range floor 0.1.  (An exact sum
    that is an integer [n], or within rounding error of one, may thus be
    stored as [n - 1] or as [n].) *)
Theorem score_routes_truncated routes criteria :
  routes ≠ [] → scores_with py_int routes criteria.
Proof.
  intros Hne ds es tmin tmax emin emax Hd He Htmin Htmax Hemin Hemax.
  assert (typed_as routes ds es) as Ht by done.
  destruct (nonempty_typed _ _ _ Hne Ht) as [Eds Ees].
  exists (weights criteria),
         (map snd (sorted_desc (decorate routes criteria ds es))).
  split_and!.
  - apply weights_priority.
  - by apply score_routes_unfold.
  - rewrite <- (decorate_unscored routes criteria ds es Ht).
    apply Permutation_map, Permutation_map, sorted_desc_perm.
  - assert (map snd (sorted_desc (decorate routes criteria ds es))
            ≡ₚ map snd (decorate routes criteria ds es)) as ->
      by apply Permutation_map, sorted_desc_perm.
    destruct (typed_as_zip _ _ _ Ht) as [_ Hz].
    unfold decorate. rewrite Forall_forall in Hz.
    apply Forall_forall. intros r Hr.
    apply list_elem_of_In, in_map_iff in Hr as (p & <- & Hp).
    apply in_map_iff in Hp as ([[r d] e] & <- & Hc).
    apply list_elem_of_In, Hz in Hc as [Hrd Hre]. simpl in Hrd, Hre.
    eexists d, e, _. split_and!; [done|done|reflexivity|].
    destruct (weights criteria) as [tw ew]. simpl fst; simpl snd.
    erewrite score_value_formula; [apply within_rounding_exact|..].
    + eapply is_min_of_unique; [|exact Htmin]. rewrite Eds at 3. apply py_min_spec.
    + eapply is_max_of_unique; [|exact Htmax]. rewrite Eds at 3. apply py_max_spec.
    + eapply is_min_of_unique; [|exact Hemin]. rewrite Ees at 3. apply py_min_spec.
    + eapply is_max_of_unique; [|exact Hemax]. rewrite Ees at 3. apply py_max_spec.
Qed.

(** The amended C1 on three candidates with durations 0, 5 and 8 under
    the "balanced" priority. *)
Lemma score_routes_truncated_witness :
  three_candidates ≠ [] ∧
  ∃ w out,
    priority_weights "balanced" w ∧
    _score_routes three_candidates "balanced" = Ok out ∧
    map unscored out ≡ₚ map unscored three_candidates ∧
    Forall (λ r, ∃ d e s,
              duration_seconds r = VNum d ∧
              emissions_kg_co2 r = Some e ∧
              score r = Some s ∧
              within_rounding py_int (weighted_score w 0 8 1 1 d e) s)
           out.
Proof.
  split; [discriminate|].
  apply (score_routes_truncated three_candidates "balanced"
           ltac:(discriminate) [0; 5; 8] [1; 1; 1] 0 8 1 1);
    [reflexivity | reflexivity | extremum | extremum | extremum | extremum].
Defined.

(** C1 as stated fails: with durations 0, 5, 8 and equal emissions under
    "balanced", the middle route has weighted score
    100 × (0.5 × (1 - 5/8) + 0.5 × 1) = 68.75; the code stores
    [int(68.75) = 68], where rounding gives 69 for 68.75 and for every
    value that differs from it by rounding error. *)
Lemma score_routes_rounded_counterexample :
  ¬ scores_with py_round three_candidates "balanced".
Proof.
  intros H.
  destruct (H [0; 5; 8] [1; 1; 1] 0 8 1 1) as (w & out & Hw & Hout & _ & Hall);
    [reflexivity | reflexivity | extremum | extremum | extremum | extremum |].
  destruct Hw as (_ & _ & Hw). rewrite Hw in Hall by done.
  vm_compute in Hout. injection Hout as <-.
  apply Forall_cons in Hall as [_ Hall].
  apply Forall_cons in Hall as [(d & e & s & Hd & He & Hs & v & Hv & ->) _].
  simpl in Hd, He, Hs. injection Hd as <-. injection He as <-.
  assert (weighted_score (0.5, 0.5) 0 8 1 1 5 1 == 68 + (3 # 4)) as Ey
    by reflexivity.
  rewrite Ey in Hv. apply Qabs_Qle_condition in Hv as [Hlo Hhi].
  unfold float_slack in Hlo, Hhi.
  rewrite (py_round_upper_half 68 v) in Hs.
  - discriminate.
  - change (inject_Z 68) with 68. lra.
  - change (inject_Z 68) with 68. lra.
Qed.

(** C8.  For every candidate set with numeric durations and emissions, the
    sequence returned by [_score_routes] consists of the input routes
    ([scored]: the input in its original order, with score and
    recommendation filled in), is sorted by score in descending order, and
    for every score value the routes with that score appear in the same
    relative order as in the input. *)
Theorem score_routes_sorted_stable routes criteria ds es :
  map duration_seconds routes = map VNum ds →
  map emissions_kg_co2 routes = map Some es →
  ∃ scored out,
    _score_routes routes criteria = Ok out ∧
    map unscored scored = map unscored routes ∧
    out ≡ₚ scored ∧
    StronglySorted desc_by_score out ∧
    ∀ z, filter (has_score z) out = filter (has_score z) scored.
Proof.
  intros Hd He. assert (typed_as routes ds es) as Ht by done.
  exists (map snd (decorate routes criteria ds es)),
         (map snd (sorted_desc (decorate routes criteria ds es))).
  pose proof (decorate_keys routes criteria ds es) as Hk.
  assert (Forall (λ p : Z * route, score p.2 = Some p.1)
            (sorted_desc (decorate routes criteria ds es))) as Hk'.
  { by rewrite sorted_desc_perm. }
  split_and!.
  - by apply score_routes_unfold.
  - by apply decorate_unscored.
  - apply Permutation_map, sorted_desc_perm.
  - apply sorted_by_key_desc; [done | apply sorted_desc_sorted].
  - intros z. by rewrite !filter_has_score, sorted_desc_stable.
Qed.

(** C8 on four candidates under "time": "b" and "d" both score 50 and
    keep their input order between "c" (100) and "a" (20). *)
Lemma score_routes_sorted_stable_witness :
  ∃ scored out,
    _score_routes tied_candidates "time" = Ok out ∧
    map rid out = ["c"; "b"; "d"; "a"]%string ∧
    map score out = [Some 100; Some 50; Some 50; Some 20]%Z ∧
    map unscored scored = map unscored tied_candidates ∧
    out ≡ₚ scored ∧
    StronglySorted desc_by_score out ∧
    ∀ z, filter (has_score z) out = filter (has_score z) scored.
Proof.
  destruct (score_routes_sorted_stable tied_candidates "time"
              [8; 5; 0; 5] [1; 1; 1; 1])
    as (scored & out & Hscore & Hrest); [reflexivity | reflexivity |].
  exists scored, out. split; [exact Hscore|].
  assert (map rid out = ["c"; "b"; "d"; "a"]%string ∧
          map score out = [Some 100; Some 50; Some 50; Some 20]%Z) as [Hr Hs].
  { vm_compute in Hscore. injection Hscore as <-. split; reflexivity. }
  split; [exact Hr|]. split; [exact Hs|]. exact Hrest.
Defined.

(** ** The result cache *)

Section Cache.
Context {V : Type}.
Implicit Types (cache : gmap string (cache_entry V)) (k : string) (v : V).

Lemma get_from_cache_valid cache ttl now k entry :
  cache !! k = Some entry →
  now - timestamp entry < ttl →
  _get_from_cache cache ttl now k = Some (data entry).
Proof.
  intros Hk Hlt. unfold _get_from_cache. rewrite Hk.
  destruct (Qlt_le_dec (now - timestamp entry) ttl) as [_|Hge]; [done|].
  exfalso. by apply (Qlt_not_le _ _ Hlt).
Qed.

Lemma get_from_cache_expired cache ttl now k entry :
  cache !! k = Some entry →
  ttl <= now - timestamp entry →
  _get_from_cache cache ttl now k = None.
Proof.
  intros Hk Hge. unfold _get_from_cache. rewrite Hk.
  destruct (Qlt_le_dec (now - timestamp entry) ttl) as [Hlt|_]; [|done].
  exfalso. by apply (Qlt_not_le _ _ Hlt).
Qed.

(** C6.  With the time-to-live of a freshly constructed optimizer, which
    is 600 seconds: storing [v] under [k] at time [t] and reading [k] at
    the same instant returns [v]; reading at [now] returns [v] while
    [now - t < ttl] and nothing once [now - t >= ttl].  For any entry
    present in the cache, a read returns its data exactly when
    [now - timestamp < ttl] and nothing exactly when
    [now - timestamp >= ttl]; the read leaves the cache as it is, so the
    expired entry stays in the map. *)
Theorem cache_put_get_expiry cache api k v (t now : Q) :
  let ttl := cache_ttl (init api) in
  let cache' := _add_to_cache cache t k v in
  ttl = 600 ∧
  _get_from_cache cache' ttl t k = Some v ∧
  (now - t < ttl → _get_from_cache cache' ttl now k = Some v) ∧
  (ttl <= now - t →
     _get_from_cache cache' ttl now k = None ∧ is_Some (cache' !! k)) ∧
  (∀ entry, cache !! k = Some entry →
     (_get_from_cache cache ttl now k = Some (data entry)
        ↔ now - timestamp entry < ttl) ∧
     (_get_from_cache cache ttl now k = None
        ↔ ttl <= now - timestamp entry)).
Proof.
  intros ttl cache'.
  assert (cache' !! k = Some {| data := v; timestamp := t |}) as Hk.
  { unfold cache', _add_to_cache. apply lookup_insert_eq. }
  split_and!.
  - reflexivity.
  - rewrite (get_from_cache_valid _ _ _ _ _ Hk); [done|]. simpl.
    assert (t - t == 0) as -> by ring. reflexivity.
  - intros Hlt. by rewrite (get_from_cache_valid _ _ _ _ _ Hk).
  - intros Hge. rewrite (get_from_cache_expired _ _ _ _ _ Hk) by done.
    split; [done|]. by rewrite Hk.
  - intros entry He. unfold _get_from_cache. rewrite He.
    destruct (Qlt_le_dec (now - timestamp entry) ttl) as [Hlt|Hge].
    + split; [done|]. split; [done|]. intros Hge.
      exfalso. by apply (Qlt_not_le _ _ Hlt).
    + split; [|done]. split; [done|]. intros Hlt.
      exfalso. by apply (Qlt_not_le _ _ Hlt).
Qed.

End Cache.

(** C6 on a value stored at time 1000: still there at 1599, gone at 1600. *)
Lemma cache_put_get_expiry_witness :
  let cache' :=
    _add_to_cache (∅ : gmap string (cache_entry nat)) 1000 "k" 7%nat in
  _get_from_cache cache' 600 1000 "k" = Some 7%nat ∧
  _get_from_cache cache' 600 1599 "k" = Some 7%nat ∧
  _get_from_cache cache' 600 1600 "k" = None.
Proof.
  intros cache'.
  destruct (cache_put_get_expiry ∅ no_clients "k" 7%nat 1000 1599)
    as (_ & H0 & H1 & _).
  destruct (cache_put_get_expiry ∅ no_clients "k" 7%nat 1000 1600)
    as (_ & _ & _ & H2 & _).
  split_and!; [exact H0 | apply H1; reflexivity | apply H2; discriminate].
Defined.

(** C3 fails on the code.  The key joins its fields with "-" and does not
    escape that character inside the fields, so requests that differ in
    vehicle type and priority, or in stops and vehicle type, can yield one
    key: vehicle "Semi-Truck" with priority "time" against vehicle "Semi"
    with priority "Truck-time"; one stop at (-1, 2) with vehicle "van"
    against no stop with vehicle "1:2-van".  Coordinates are Python ints
    here, printed in decimal. *)
Lemma cache_key_collision :
  let key := _generate_cache_key (pretty : Z → string) in
  key (13, 80)%Z (12, 80)%Z None "Semi-Truck" "time"
  = key (13, 80)%Z (12, 80)%Z None "Semi" "Truck-time" ∧
  key (13, 80)%Z (12, 80)%Z (Some [(-1, 2)%Z]) "van" "time"
  = key (13, 80)%Z (12, 80)%Z None "1:2-van" "time" ∧
  key (13, 80)%Z (12, 80)%Z None "Semi-Truck" "time"
  = "13:80-12:80--Semi-Truck-time"%string.
Proof. vm_compute. done. Qed.


(** *** What the key does separate *)

Lemma string_app_cons x (a b : string) : String x a +:+ b = String x (a +:+ b).
Proof. reflexivity. Qed.

Lemma string_app_nil_l (b : string) : "" +:+ b = b.
Proof. reflexivity. Qed.

Lemma string_app_assoc (a b c : string) : (a +:+ b) +:+ c = a +:+ (b +:+ c).
Proof.
  induction a as [|x a IH]; [done|]. rewrite !string_app_cons. by f_equal.
Qed.

Lemma string_app_nil_r (a : string) : a +:+ "" = a.
Proof.
  induction a as [|x a IH]; [done|]. rewrite string_app_cons. by f_equal.
Qed.

Lemma string_length_app (a b : string) :
  String.length (a +:+ b) = (String.length a + String.length b)%nat.
Proof.
  induction a as [|x a IH]; [done|]. rewrite string_app_cons. simpl. by f_equal.
Qed.

Lemma string_app_inj_r (a b s : string) : a +:+ s = b +:+ s → a = b.
Proof.
  intros H.
  assert (String.length a = String.length b) as Hlen.
  { apply (f_equal String.length) in H. rewrite !string_length_app in H. lia. }
  revert b H Hlen. induction a as [|x a IH]; intros [|y b]; try done.
  rewrite !string_app_cons. intros [= -> H] [= Hlen]. f_equal. by apply IH.
Qed.

Ltac string_norm :=
  repeat first [rewrite string_app_assoc | rewrite string_app_cons
               | rewrite string_app_nil_l ].

Ltac sep_tac :=
  simpl; rewrite ?string_app_cons, ?string_app_nil_l; simpl; auto.
Ltac string_norm_in H :=
  repeat first [rewrite string_app_cons in H | rewrite string_app_nil_l in H ].

Section KeyFacts.
Context {coord : Type} (str : coord → string).
Hypothesis str_delimited : self_delimiting str.

Lemma stop_str_delimited (s s' : coord * coord) r r' :
  stop_str str s +:+ r = stop_str str s' +:+ r' →
  sep_start r → sep_start r' → s = s' ∧ r = r'.
Proof.
  destruct s as [a b], s' as [a' b']. unfold stop_str; simpl fst; simpl snd.
  string_norm. intros H Hr Hr'.
  apply str_delimited in H as [-> H]; [sep_tac | sep_tac |].
  injection H as H.
  apply str_delimited in H as [-> H]; [done | done |].
  done.
Qed.

Lemma stop_str_nonempty (s : coord * coord) r : stop_str str s +:+ r ≠ "".
Proof.
  unfold stop_str. string_norm.
  destruct (str s.1); string_norm; discriminate.
Qed.

Lemma stops_str_cons (s : coord * coord) (k : list (coord * coord)) :
  String.concat "-" (map (stop_str str) (s :: k))
  = stop_str str s +:+
    match k with
    | [] => ""
    | _ => "-" +:+ String.concat "-" (map (stop_str str) k)
    end.
Proof. destruct k; simpl; [by rewrite string_app_nil_r | done]. Qed.

Lemma stops_str_inj (l l' : list (coord * coord)) :
  String.concat "-" (map (stop_str str) l)
  = String.concat "-" (map (stop_str str) l') → l = l'.
Proof.
  revert l'. induction l as [|s l IH]; intros [|s' l']; [done| | |].
  - rewrite stops_str_cons. intros H. symmetry in H.
    by apply stop_str_nonempty in H.
  - rewrite stops_str_cons. intros H. by apply stop_str_nonempty in H.
  - rewrite !stops_str_cons. intros H.
    apply stop_str_delimited in H as [-> H].
    + f_equal. apply IH.
      destruct l as [|? ?], l' as [|? ?]; try done.
      by injection H.
    + destruct l; sep_tac.
    + destruct l'; sep_tac.
Qed.

(** Requests that agree on vehicle type and priority get the same key
    only if they agree on origin, destination and the sequence of stops. *)
Lemma cache_key_separates_routes origin destination stops
    origin' destination' stops' vehicle_type criteria :
  _generate_cache_key str origin destination stops vehicle_type criteria
  = _generate_cache_key str origin' destination' stops' vehicle_type criteria →
  origin = origin' ∧ destination = destination' ∧
  default [] stops = default [] stops'.
Proof.
  destruct origin as [o1 o2], origin' as [o1' o2'],
    destination as [d1 d2], destination' as [d1' d2'].
  unfold _generate_cache_key; simpl fst; simpl snd. intros H.
  apply str_delimited in H as [-> H]; [sep_tac | sep_tac |].
  string_norm_in H. injection H as H.
  apply str_delimited in H as [-> H]; [sep_tac | sep_tac |].
  string_norm_in H. injection H as H.
  apply str_delimited in H as [-> H]; [sep_tac | sep_tac |].
  string_norm_in H. injection H as H.
  apply str_delimited in H as [-> H]; [sep_tac | sep_tac |].
  string_norm_in H. injection H as H.
  apply string_app_inj_r in H.
  split_and!; [done..|].
  assert (∀ st : option (list (coord * coord)),
            match st with
            | Some [] | None => ""
            | Some ((_ :: _) as l) => String.concat "-" (map (stop_str str) l)
            end = String.concat "-" (map (stop_str str) (default [] st))) as E.
  { intros [[|? ?]|]; reflexivity. }
  rewrite !E in H. by apply stops_str_inj.
Qed.

End KeyFacts.

(** *** Decimal printing of integers is self-delimiting *)

Lemma digit_not_sep (n : N) c : c = pretty_N_char n → c ≠ ":"%char ∧ c ≠ "-"%char.
Proof. intros ->. unfold pretty_N_char. by repeat case_match. Qed.

Lemma pretty_N_go_digits (x : N) s : all_digits s → all_digits (pretty_N_go x s).
Proof.
  revert s. induction (N.lt_wf_0 x) as [x _ IH]; intros s Hs.
  assert (x = 0 ∨ 0 < x)%N as [->|Hx] by lia.
  - by rewrite pretty_N_go_0.
  - rewrite pretty_N_go_step by done. apply IH.
    + by apply N.div_lt.
    + split; [eauto | done].
Qed.

Lemma pretty_N_digits (x : N) : all_digits (pretty x) ∧ pretty x ≠ "".
Proof.
  unfold pretty, pretty_N. case_decide as Hx.
  - split; [|done]. split; [by exists 0%N | done].
  - split; [by apply pretty_N_go_digits|].
    rewrite pretty_N_go_step by lia.
    assert (∀ y s, s ≠ "" → pretty_N_go y s ≠ "") as Hne.
    { intros y. induction (N.lt_wf_0 y) as [y _ IH]; intros s Hs.
      assert (y = 0 ∨ 0 < y)%N as [->|Hy] by lia.
      - by rewrite pretty_N_go_0.
      - rewrite pretty_N_go_step by done. apply IH; [by apply N.div_lt|done]. }
    by apply Hne.
Qed.

Lemma digits_delimited (d d' r r' : string) :
  all_digits d → all_digits d' → sep_start r → sep_start r' →
  d +:+ r = d' +:+ r' → d = d' ∧ r = r'.
Proof.
  revert d'. induction d as [|c d IH]; intros [|c' d']; simpl;
    rewrite ?string_app_cons, ?string_app_nil_l.
  - done.
  - intros _ [[n Hn] _] Hr _ ->. simpl in Hr.
    destruct (digit_not_sep n c' Hn). by destruct Hr.
  - intros [[n Hn] _] _ _ Hr' <-. simpl in Hr'.
    destruct (digit_not_sep n c Hn). by destruct Hr'.
  - intros [_ Hd] [_ Hd'] Hr Hr' [= -> H].
    destruct (IH d' Hd Hd' Hr Hr' H) as [-> ->]. done.
Qed.

Lemma pretty_Z_shape (x : Z) :
  ∃ d, all_digits d ∧ d ≠ "" ∧
       (pretty x = d ∨ pretty x = String "-" d).
Proof.
  destruct x as [|p|p]; unfold pretty, pretty_Z.
  - exists "0"%string. split_and!; [|done|by left].
    split; [by exists 0%N | done].
  - exists (pretty (N.pos p)).
    destruct (pretty_N_digits (N.pos p)) as [? ?]. split_and!; [done..|by left].
  - exists (pretty (N.pos p)).
    destruct (pretty_N_digits (N.pos p)) as [? ?]. split_and!; [done..|by right].
Qed.

Lemma pretty_Z_self_delimiting : self_delimiting (pretty : Z → string).
Proof.
  intros x y r r' H Hr Hr'.
  destruct (pretty_Z_shape x) as (d & Hd & Hne & Hx),
           (pretty_Z_shape y) as (d' & Hd' & Hne' & Hy).
  assert (pretty x = pretty y ∧ r = r') as [E ->].
  { destruct Hx as [Ex|Ex], Hy as [Ey|Ey]; rewrite Ex, Ey in H |- *;
      rewrite ?string_app_cons in H.
    - by destruct (digits_delimited d d' r r') as [-> ->].
    - destruct d as [|c d]; [done|]. rewrite string_app_cons in H.
      injection H as -> _. destruct Hd as [[n Hn] _].
      by destruct (digit_not_sep n _ Hn).
    - destruct d' as [|c d']; [done|]. rewrite string_app_cons in H.
      injection H as <- _. destruct Hd' as [[n Hn] _].
      by destruct (digit_not_sep n _ Hn).
    - injection H as H.
      by destruct (digits_delimited d d' r r') as [-> ->]. }
  split; [|done]. by apply (inj pretty).
Qed.

(** With integer coordinates, swapping two stops changes the key. *)
Lemma cache_key_stop_order :
  let key := _generate_cache_key (pretty : Z → string) in
  key (13, 80)%Z (12, 80)%Z (Some [(1, 2); (3, 4)]%Z) "delivery_van" "time"
  ≠ key (13, 80)%Z (12, 80)%Z (Some [(3, 4); (1, 2)]%Z) "delivery_van" "time".
Proof.
  intros key H.
  apply (cache_key_separates_routes _ pretty_Z_self_delimiting) in H
    as (_ & _ & H).
  discriminate.
Qed.

(** ** The factor-model estimator *)

Lemma lookup_row table vehicle_type row :
  profile_row table vehicle_type = Some row →
  (known ← contains (VDict table) vehicle_type;
   getitem (VDict table)
     (if (known : bool) then vehicle_type else "Delivery Van"))
  = Ok row.
Proof.
  unfold profile_row. simpl. intros H.
  destruct (table !! vehicle_type) as [r|] eqn:E.
  - injection H as ->. rewrite bool_decide_eq_true_2 by eauto.
    simpl. by rewrite E.
  - rewrite bool_decide_eq_false_2 by (by intros [? ?]).
    simpl. by rewrite H.
Qed.

(** C5.  When the vehicle's row (or the "Delivery Van" row for an unknown
    type) provides a numeric base emission rate and payload factor, and
    speed, gradient, payload and congestion are numbers and the weather a
    string, the estimator does not take the fallback and returns
    [distance_km × rate × speed_factor × gradient_factor × payload_factor
     × traffic_factor × weather_factor / 1000] kg with
    [distance_km = distance_miles × 1.60934], the step function for speed
    (1.2 below 30, 1.15 above 75, else 1), [1 + 0.02 × |gradient|],
    [1 + payload/100 × payload_factor], [1 + 0.3 × congestion], and the
    case-insensitive weather factor (rain 1.05, snow 1.10, strong wind
    1.08, else 1). *)
Theorem calculate_emissions_formula table vehicle_type row
    (distance_miles rate pf speed gradient payload congestion : Q)
    (weather : string) :
  profile_row table vehicle_type = Some (VDict row) →
  row !! "base_emission_rate" = Some (VNum rate) →
  row !! "payload_factor" = Some (VNum pf) →
  let distance_km := distance_miles * 1.60934 in
  ∃ kg,
    EmissionsCalculator.calculate_emissions_body (VDict table)
      (VNum distance_miles) vehicle_type (VNum speed) (VNum gradient)
      (VNum payload) (VNum congestion) (VStr weather) = Ok kg ∧
    EmissionsCalculator.calculate_emissions (VDict table)
      (VNum distance_miles) vehicle_type (VNum speed) (VNum gradient)
      (VNum payload) (VNum congestion) (VStr weather) = Ok kg ∧
    kg == distance_km * rate * speed_factor speed
          * (1 + 0.02 * Qabs gradient)
          * (1 + payload / 100 * pf)
          * (1 + 0.3 * congestion)
          * weather_factor weather / 1000.
Proof.
  intros Hrow Hrate Hpf distance_km.
  pose proof (lookup_row _ _ _ Hrow) as Hl.
  unfold EmissionsCalculator.calculate_emissions,
    EmissionsCalculator.calculate_emissions_body.
  simpl in Hl |- *.
  destruct (bool_decide (is_Some (table !! vehicle_type))); simpl in Hl |- *.
  all: destruct (table !! _) as [r|]; simpl in Hl |- *; [|done].
  all: injection Hl as ->; simpl; rewrite Hrate, Hpf; simpl.
  all: eexists; split_and!; [reflexivity..|].
  all: unfold speed_factor, weather_factor, eq_nocase, distance_km.
  all: change (lower "rain") with "rain"%string;
       change (lower "snow") with "snow"%string;
       change (lower "strong wind") with "strong wind"%string.
  all: destruct (Qlt_le_dec speed 30), (Qlt_le_dec 75 speed);
       destruct (String.eqb (lower weather) "rain"),
                (String.eqb (lower weather) "snow"),
                (String.eqb (lower weather) "strong wind"); field.
Qed.

(** C5 for 100 miles in a box truck at 20 mph, gradient -2, 500 kg
    payload, congestion 0.5, weather "Snow". *)
Lemma calculate_emissions_formula_witness :
  ∃ kg,
    EmissionsCalculator.calculate_emissions
      EmissionsCalculator.default_emission_factors (VNum 100) "Box Truck"
      (VNum 20) (VNum (-2)) (VNum 500) (VNum 0.5) (VStr "Snow") = Ok kg ∧
    kg == 100 * 1.60934 * 450 * 1.2 * 1.04 * 1.4 * 1.15 * 1.1 / 1000.
Proof.
  destruct (calculate_emissions_formula EmissionsCalculator.default_table
              "Box Truck" (EmissionsCalculator.factors 450 8 0.08)
              100 450 0.08 20 (-2) 500 0.5 "Snow")
    as (kg & _ & Hkg & Heq); [reflexivity..|].
  exists kg. split; [exact Hkg|]. rewrite Heq. reflexivity.
Defined.

Lemma as_num_ok v q : as_num v = Ok q → v = VNum q.
Proof. destruct v; simpl; congruence. Qed.

Lemma getitem_ok v k x :
  getitem v k = Ok x → ∃ d, v = VDict d ∧ d !! k = Some x.
Proof.
  destruct v as [| | |d]; simpl; try done.
  destruct (d !! k) eqn:E; [|done]. intros [= ->]. eauto.
Qed.

Lemma bind_ok {A B} (c : exc A) (k : A → exc B) y :
  (c ≫= k) = Ok y → ∃ x, c = Ok x ∧ k x = Ok y.
Proof. destruct c as [x|e]; simpl; [eauto | done]. Qed.

(** The [try] block completes exactly on the well-formed calls with a
    numeric distance. *)
Lemma body_ok_well_formed ef distance vehicle_type speed gradient payload
    congestion weather x :
  EmissionsCalculator.calculate_emissions_body ef distance vehicle_type
    speed gradient payload congestion weather = Ok x →
  well_formed_call ef vehicle_type speed gradient payload congestion weather ∧
  ∃ d, distance = VNum d.
Proof.
  unfold EmissionsCalculator.calculate_emissions_body. intros H.
  apply bind_ok in H as (known & Hc & H).
  apply bind_ok in H as (vf & Hvf & H).
  apply bind_ok in H as (miles & Hm & H).
  apply bind_ok in H as (rate_v & Hrv & H).
  apply bind_ok in H as (rate & Hrate & H).
  apply bind_ok in H as (s & Hs & H).
  apply bind_ok in H as (g & Hg & H).
  apply bind_ok in H as (p & Hp & H).
  apply bind_ok in H as (pf_v & Hpv & H).
  apply bind_ok in H as (pf & Hpf & H).
  apply bind_ok in H as (c & Hcg & H).
  apply bind_ok in H as (w & Hw & _).
  apply getitem_ok in Hvf as (table & -> & Hrow).
  apply getitem_ok in Hrv as (row & -> & Hr).
  apply getitem_ok in Hpv as (row' & [= <-] & Hpfv).
  apply as_num_ok in Hrate as ->, Hpf as ->, Hs as ->, Hg as ->, Hp as ->,
    Hcg as ->, Hm as ->.
  destruct weather as [| |wstr|]; try done.
  split; [|eauto].
  exists table, row, rate, pf, s, g, p, c, wstr. split_and!; try done.
  unfold profile_row. simpl in Hc. injection Hc as <-.
  case_bool_decide as Hk.
  - by rewrite Hrow.
  - destruct (table !! vehicle_type) eqn:E; [|done]. by destruct Hk.
Qed.

Lemma well_formed_body_ok ef d vehicle_type speed gradient payload congestion
    weather :
  well_formed_call ef vehicle_type speed gradient payload congestion weather →
  ∃ kg, EmissionsCalculator.calculate_emissions_body ef (VNum d) vehicle_type
          speed gradient payload congestion weather = Ok kg.
Proof.
  intros (table & row & rate & pf & s & g & p & c & w &
          -> & Hrow & Hrate & Hpf & -> & -> & -> & -> & ->).
  pose proof (lookup_row _ _ _ Hrow) as Hl.
  unfold EmissionsCalculator.calculate_emissions_body.
  apply bind_ok in Hl as (known & -> & Hl). cbn [mbind exc_bind bind].
  rewrite Hl. cbn [mbind exc_bind bind getitem as_num]. rewrite Hrate, Hpf.
  cbn [mbind exc_bind bind as_num EmissionsCalculator.str_lower]. eauto.
Qed.

Section Estimator.
Variables (ef : pyval) (vehicle_type : string)
  (avg_speed_mph gradient payload_kg traffic_congestion
     weather_conditions : pyval).

(** Whether the [try] block raises on a numeric distance does not depend
    on the distance, and when it does not raise its value is the distance
    times a constant. *)
Lemma body_shape :
  (∃ k, ∀ d, ∃ x,
     EmissionsCalculator.calculate_emissions_body ef (VNum d) vehicle_type
       avg_speed_mph gradient payload_kg traffic_congestion
       weather_conditions = Ok x ∧
     x == d * k) ∨
  (∀ d, ∃ e,
     EmissionsCalculator.calculate_emissions_body ef (VNum d) vehicle_type
       avg_speed_mph gradient payload_kg traffic_congestion
       weather_conditions = Raise e).
Proof.
  unfold EmissionsCalculator.calculate_emissions_body.
  destruct (contains ef vehicle_type) as [known|e];
    cbn [mbind exc_bind bind]; [|right; eauto].
  destruct (getitem ef _) as [vf|e];
    cbn [mbind exc_bind bind as_num]; [|right; eauto].
  destruct (getitem vf "base_emission_rate") as [rate_v|e];
    cbn [mbind exc_bind bind]; [|right; eauto].
  destruct (as_num rate_v) as [rate|e];
    cbn [mbind exc_bind bind]; [|right; eauto].
  destruct (as_num avg_speed_mph) as [speed|e];
    cbn [mbind exc_bind bind]; [|right; eauto].
  destruct (as_num gradient) as [g|e];
    cbn [mbind exc_bind bind]; [|right; eauto].
  destruct (as_num payload_kg) as [payload|e];
    cbn [mbind exc_bind bind]; [|right; eauto].
  destruct (getitem vf "payload_factor") as [pf_v|e];
    cbn [mbind exc_bind bind]; [|right; eauto].
  destruct (as_num pf_v) as [pf|e];
    cbn [mbind exc_bind bind]; [|right; eauto].
  destruct (as_num traffic_congestion) as [congestion|e];
    cbn [mbind exc_bind bind]; [|right; eauto].
  destruct (EmissionsCalculator.str_lower weather_conditions) as [w|e];
    cbn [mbind exc_bind bind]; [|right; eauto].
  left.
  exists (1.60934 * rate
          * (if Qlt_le_dec speed 30 then 1.2
             else if Qlt_le_dec 75 speed then 1.15 else 1.0)
          * (1.0 + Qabs g * 0.02)
          * (1.0 + payload / 100 * pf)
          * (1.0 + congestion * 0.3)
          * (if String.eqb w "rain" then 1.05
             else if String.eqb w "snow" then 1.1
             else if String.eqb w "strong wind" then 1.08 else 1.0)
          / 1000).
  intros d. eexists. split; [reflexivity|]. cbv zeta. field.
Qed.

(** On a numeric distance a raising [try] block is answered with the
    fallback estimate. *)
Lemma body_raise_fallback d e :
  EmissionsCalculator.calculate_emissions_body ef (VNum d) vehicle_type
    avg_speed_mph gradient payload_kg traffic_congestion weather_conditions
  = Raise e →
  EmissionsCalculator.calculate_emissions ef (VNum d) vehicle_type
    avg_speed_mph gradient payload_kg traffic_congestion weather_conditions
  = Ok (d * 0.4).
Proof.
  intros H. unfold EmissionsCalculator.calculate_emissions. by rewrite H.
Qed.

(** C7, as amended.  Whatever the table, the vehicle type and the other
    arguments are: when [distance_miles] is a number, the estimator never
    raises, and if its [try] block raises any exception it returns
    [distance_miles × 0.4] instead (the block raises only on calls that
    are not well formed).  When [distance_miles] is not a number, the
    [try] block raises, the handler's [distance_miles * 0.4] raises in
    turn, and the estimator propagates that [TypeError]. *)
Theorem calculate_emissions_fallback (distance_miles : pyval) :
  (∀ d, distance_miles = VNum d →
     (∃ kg,
        EmissionsCalculator.calculate_emissions ef distance_miles
          vehicle_type avg_speed_mph gradient payload_kg traffic_congestion
          weather_conditions = Ok kg) ∧
     ∀ e,
       EmissionsCalculator.calculate_emissions_body ef distance_miles
         vehicle_type avg_speed_mph gradient payload_kg traffic_congestion
         weather_conditions = Raise e →
       EmissionsCalculator.calculate_emissions ef distance_miles vehicle_type
         avg_speed_mph gradient payload_kg traffic_congestion
         weather_conditions = Ok (d * 0.4) ∧
       ¬ well_formed_call ef vehicle_type avg_speed_mph gradient payload_kg
           traffic_congestion weather_conditions) ∧
  ((∀ d, distance_miles ≠ VNum d) →
   ∃ msg,
     EmissionsCalculator.calculate_emissions ef distance_miles vehicle_type
       avg_speed_mph gradient payload_kg traffic_congestion
       weather_conditions = Raise (TypeError msg)).
Proof.
  split.
  - intros d ->. split.
    + unfold EmissionsCalculator.calculate_emissions.
      destruct (EmissionsCalculator.calculate_emissions_body _ _ _ _ _ _ _ _)
        as [kg|e]; simpl; eauto.
    + intros e H. split; [by apply (body_raise_fallback d e)|].
      intros Hwf.
      destruct (well_formed_body_ok ef d _ _ _ _ _ _ Hwf) as [kg Hkg].
      congruence.
  - intros Hd. unfold EmissionsCalculator.calculate_emissions.
    destruct (EmissionsCalculator.calculate_emissions_body _ _ _ _ _ _ _ _)
      as [kg|e] eqn:E.
    + apply body_ok_well_formed in E as [_ [d E]]. by destruct (Hd d).
    + simpl. destruct distance_miles as [|d| |]; simpl; eauto.
      by destruct (Hd d).
Qed.

(** Conversely, every call with a numeric distance that is not well
    formed takes the fallback. *)
Lemma ill_formed_call_fallback (d : Q) :
  ¬ well_formed_call ef vehicle_type avg_speed_mph gradient payload_kg
      traffic_congestion weather_conditions →
  EmissionsCalculator.calculate_emissions ef (VNum d) vehicle_type
    avg_speed_mph gradient payload_kg traffic_congestion weather_conditions
  = Ok (d * 0.4).
Proof.
  intros Hill.
  destruct (EmissionsCalculator.calculate_emissions_body ef (VNum d)
              vehicle_type avg_speed_mph gradient payload_kg
              traffic_congestion weather_conditions) as [kg|e] eqn:E.
  - destruct Hill. by eapply body_ok_well_formed.
  - by apply (body_raise_fallback d e).
Qed.

(** C9.  With every input but the distance fixed, on the factor path and
    on the fallback path alike, the estimator returns for every numeric
    distance, doubling the distance doubles the estimate, and the estimate
    at distance 0 is 0 kg. *)
Theorem calculate_emissions_linear (d : Q) :
  ∃ twice once zero,
    EmissionsCalculator.calculate_emissions ef (VNum (2 * d)) vehicle_type
      avg_speed_mph gradient payload_kg traffic_congestion weather_conditions
    = Ok twice ∧
    EmissionsCalculator.calculate_emissions ef (VNum d) vehicle_type
      avg_speed_mph gradient payload_kg traffic_congestion weather_conditions
    = Ok once ∧
    EmissionsCalculator.calculate_emissions ef (VNum 0) vehicle_type
      avg_speed_mph gradient payload_kg traffic_congestion weather_conditions
    = Ok zero ∧
    twice == 2 * once ∧ zero == 0.
Proof.
  unfold EmissionsCalculator.calculate_emissions.
  destruct body_shape as [[k Hk]|Hr].
  - destruct (Hk (2 * d)) as (x2 & -> & E2), (Hk d) as (x & -> & E),
      (Hk 0) as (x0 & -> & E0). simpl.
    eexists _, _, _. split_and!; [reflexivity..| |].
    + rewrite E2, E. ring.
    + rewrite E0. ring.
  - destruct (Hr (2 * d)) as (? & ->), (Hr d) as (? & ->), (Hr 0) as (? & ->).
    simpl. eexists _, _, _. split_and!; [reflexivity..| |]; ring.
Qed.

End Estimator.

(** The amended C7 on three calls.  First the arguments that
    [compare_route_emissions] passes for a route without optional keys:
    the congestion is the string "normal", the multiplication by 0.3
    raises, and 10 miles are estimated at 4 kg.  Second a well-typed call
    against a configuration file that lists only "Box Truck": the unknown
    type "Cargo Bike" is replaced by "Delivery Van", whose row is missing.
    Third a call without a distance ([None]). *)
Lemma calculate_emissions_fallback_witness :
  let box_truck_only : pyval :=
    VDict {["Box Truck" := VDict (EmissionsCalculator.factors 450 8 0.08)]} in
  EmissionsCalculator.calculate_emissions
    EmissionsCalculator.default_emission_factors (VNum 10) "Delivery Van"
    (VNum 55) (VNum 0) (VNum 0) (VStr "normal") (VStr "normal")
  = Ok (10 * 0.4) ∧
  EmissionsCalculator.calculate_emissions box_truck_only (VNum 10)
    "Cargo Bike" (VNum 55) (VNum 0) (VNum 0) (VNum 0) (VStr "normal")
  = Ok (10 * 0.4) ∧
  ∃ msg,
    EmissionsCalculator.calculate_emissions
      EmissionsCalculator.default_emission_factors VNone "Delivery Van"
      (VNum 55) (VNum 0) (VNum 0) (VNum 0) (VStr "normal")
    = Raise (TypeError msg).
Proof.
  intros box_truck_only. split_and!.
  - eapply (proj1 (calculate_emissions_fallback _ _ _ _ _ _ _ _) 10 eq_refl).
    reflexivity.
  - eapply (proj1 (calculate_emissions_fallback _ _ _ _ _ _ _ _) 10 eq_refl).
    reflexivity.
  - apply (proj2 (calculate_emissions_fallback _ _ _ _ _ _ _ _)).
    intros d. discriminate.
Defined.

(** C7 as stated fails: a well-formed call whose distance is the text
    "12 miles" raises inside the [try] block at
    [distance_miles * 1.60934] and again in the handler at
    [distance_miles * 0.4]; the estimator propagates the [TypeError]
    instead of returning a fallback estimate. *)
Lemma calculate_emissions_text_distance_raises :
  EmissionsCalculator.calculate_emissions
    EmissionsCalculator.default_emission_factors (VStr "12 miles")
    "Delivery Van" (VNum 55) (VNum 0) (VNum 0) (VNum 0) (VStr "normal")
  = Raise (TypeError "unsupported operand type(s)").
Proof. reflexivity. Qed.

(** ** The profile-based estimator of prototype.py *)

(** C10.  The profile-based estimator is a total function into the
    numbers.  It returns 0 whenever its [try] block raises (a distance or
    an efficiency that is not a number, a configuration that is not a
    dict, settings that were never loaded, ...), not a distance-based
    fallback; it returns 0 for a configuration dict with neither the
    [fuel_efficiency_l_per_100km] nor the [energy_efficiency_kwh_per_100km]
    key; and a combustion configuration without [fuel_type] is treated as
    one whose [fuel_type] is "diesel". *)
Theorem profile_estimator_total (config : Prototype.settings)
    (distance_meters vehicle_config : pyval) :
  (∀ e, Prototype.calculate_emissions_body config distance_meters
          vehicle_config = Raise e →
        Prototype.calculate_emissions config distance_meters vehicle_config
        == 0) ∧
  (∀ d, vehicle_config = VDict d →
        d !! "fuel_efficiency_l_per_100km" = None →
        d !! "energy_efficiency_kwh_per_100km" = None →
        Prototype.calculate_emissions config distance_meters vehicle_config
        == 0) ∧
  (∀ d, vehicle_config = VDict d →
        is_Some (d !! "fuel_efficiency_l_per_100km") →
        d !! "fuel_type" = None →
        Prototype.calculate_emissions config distance_meters vehicle_config
        = Prototype.calculate_emissions config distance_meters
            (VDict (<["fuel_type" := VStr "diesel"]> d))).
Proof.
  unfold Prototype.calculate_emissions. split_and!.
  - by intros e ->.
  - intros d -> H1 H2. unfold Prototype.calculate_emissions_body.
    destruct (as_num distance_meters) as [dm|e]; [|done].
    cbn [mbind exc_bind bind contains].
    rewrite H1, H2.
    rewrite !bool_decide_eq_false_2 by (by intros [? ?]). done.
  - intros d -> [eff H1] H2. unfold Prototype.calculate_emissions_body.
    destruct (as_num distance_meters) as [dm|e]; [|done].
    cbn [mbind exc_bind bind contains getitem get_default].
    rewrite lookup_insert_ne by done. rewrite H1, H2.
    rewrite lookup_insert_eq. done.
Qed.

(** C10 on 10 km: settings not loaded (the lookup of the emission factor
    raises), a configuration with neither efficiency key, and a van at
    12 l/100 km without [fuel_type], which is charged at the diesel factor
    2.68 kg per litre. *)
Lemma profile_estimator_total_witness :
  let van : gmap string pyval :=
    {["fuel_efficiency_l_per_100km" := VNum 12]} in
  let loaded : Prototype.settings :=
    Some (<["diesel" := VNum 2.68]> {["electric" := VNum 0.5]}) in
  Prototype.calculate_emissions None (VNum 10000) (VDict van) == 0 ∧
  Prototype.calculate_emissions loaded (VNum 10000)
    (VDict {["weight_empty_kg" := VNum 2500]}) == 0 ∧
  Prototype.calculate_emissions loaded (VNum 10000) (VDict van)
  = Prototype.calculate_emissions loaded (VNum 10000)
      (VDict (<["fuel_type" := VStr "diesel"]> van)) ∧
  Prototype.calculate_emissions loaded (VNum 10000) (VDict van)
  == 10 * 12 / 100 * 2.68.
Proof.
  intros van loaded.
  destruct (profile_estimator_total None (VNum 10000) (VDict van))
    as (Hraise & _ & _).
  destruct (profile_estimator_total loaded (VNum 10000)
              (VDict {["weight_empty_kg" := VNum 2500]}))
    as (_ & Hnone & _).
  destruct (profile_estimator_total loaded (VNum 10000) (VDict van))
    as (_ & _ & Hdiesel).
  split_and!.
  - apply (Hraise (RuntimeError
             "Configuration not loaded. Call load_config() first.")).
    reflexivity.
  - by apply (Hnone _ eq_refl).
  - apply (Hdiesel _ eq_refl); [by eexists | reflexivity].
  - q_order.
Defined.

(** ** The orchestrator *)

Lemma score_routes_ranked routes criteria ds es :
  typed_as routes ds es →
  ∃ out,
    _score_routes routes criteria = Ok out ∧
    StronglySorted desc_by_score out ∧
    ∀ B (f : route → B),
      (∀ r, f r = f (unscored r)) → map f out ≡ₚ map f routes.
Proof.
  intros Ht.
  exists (map snd (sorted_desc (decorate routes criteria ds es))).
  split_and!.
  - by apply score_routes_unfold.
  - apply sorted_by_key_desc; [|apply sorted_desc_sorted].
    rewrite sorted_desc_perm. apply decorate_keys.
  - intros B f Hf.
    rewrite (Permutation_map f (Permutation_map snd (sorted_desc_perm _))).
    rewrite (map_ext f (λ r, f (unscored r)) Hf (map snd _)).
    rewrite (map_ext f (λ r, f (unscored r)) Hf routes).
    rewrite <- !(map_map unscored f). by rewrite decorate_unscored.
Qed.

Lemma summary_dict_length len time delay dflt :
  get_default (summary_dict len time delay) "lengthInMeters" dflt = Ok len.
Proof. unfold summary_dict, get_default. by rewrite lookup_insert_eq. Qed.

Lemma summary_dict_time len time delay dflt :
  get_default (summary_dict len time delay) "travelTimeInSeconds" dflt = Ok time.
Proof.
  unfold summary_dict, get_default.
  rewrite lookup_insert_ne by done. by rewrite lookup_insert_eq.
Qed.

Lemma summary_dict_delay len time delay dflt :
  get_default (summary_dict len time delay) "trafficDelayInSeconds" dflt
  = Ok delay.
Proof.
  unfold summary_dict, get_default.
  do 2 (rewrite lookup_insert_ne by done). by rewrite lookup_insert_eq.
Qed.


Section Orchestration.
Variable coord_str : Q → string.
Variable haversine_distance : Q → Q → Q → Q → exc Q.

(** C2.  [optimize_route] is a total function of the optimizer, the clock
    and the request: it always yields a result (and the optimizer's next
    state).  Whenever its [try] block raises an exception [e], the result
    has status "error", carries [str(e)] as its message, lists no routes,
    and the cache is left as it was. *)
Theorem optimize_route_total (self : optimizer) (clk : clock)
    (origin destination : point) (stops : option (list point))
    (vehicle_type departure_time criteria : string) (max_alternatives : Z) :
  ∃ result self',
    optimize_route coord_str haversine_distance self clk origin destination
      stops vehicle_type departure_time criteria max_alternatives
    = (result, self') ∧
    ∀ e,
      optimize_route_body coord_str haversine_distance self clk origin
        destination stops vehicle_type departure_time criteria max_alternatives
      = Raise e →
      status result = "error" ∧
      message result = Some (str_exn e) ∧
      routes result = [] ∧
      cache self' = cache self.
Proof.
  unfold optimize_route.
  destruct (optimize_route_body _ _ _ _ _ _ _ _ _ _ _) as [[r c]|e0]; simpl.
  - eexists _, _. split; [reflexivity|]. intros e [=].
  - eexists _, _. split; [reflexivity|]. intros e [= <-]. done.
Qed.

End Orchestration.

(** C2 on a request whose TomTom response holds a route with a null
    summary: normalisation raises on [None.get(...)], and the caller
    receives an error result with that message. *)
Lemma optimize_route_total_witness :
  ∃ result self',
    optimize_route sample_coord_str haversine_chennai
      (init (tomtom_only null_summary_tomtom)) noon
      (13.0827, 80.2707) (12.9941, 80.1709) None "delivery_van" "now" "time" 3
    = (result, self') ∧
    status result = "error" ∧
    message result = Some "object has no attribute 'get'" ∧
    routes result = [] ∧
    cache self' = ∅.
Proof.
  destruct (optimize_route_total sample_coord_str haversine_chennai
              (init (tomtom_only null_summary_tomtom)) noon
              (13.0827, 80.2707) (12.9941, 80.1709) None
              "delivery_van" "now" "time" 3)
    as (result & self' & Heq & Herr).
  exists result, self'. split; [exact Heq|].
  apply (Herr (AttributeError "object has no attribute 'get'")).
  vm_compute. reflexivity.
Defined.



Section Fallback.
Variable coord_str : Q → string.
Variable haversine_distance : Q → Q → Q → Q → exc Q.


End Fallback.



(** ** Further properties of the scorer *)

Lemma unit_score a r :
  0 <= a → a <= r → 0 < r → 0 <= 1 - a / r ∧ 1 - a / r <= 1.
Proof.
  intros Ha Har Hr.
  assert (0 <= a / r) as H0.
  { apply Qle_shift_div_l; [done|]. by rewrite Qmult_0_l. }
  assert (a / r <= 1) as H1.
  { apply Qle_shift_div_r; [done|]. by rewrite Qmult_1_l. }
  split; lra.
Qed.

Lemma py_int_bounds x (lo hi : Z) :
  inject_Z lo <= x → x <= inject_Z hi → (0 <= lo)%Z → (lo <= py_int x <= hi)%Z.
Proof.
  intros Hlo Hhi H0. unfold py_int.
  assert (0 <= x) as Hx.
  { eapply Qle_trans; [|exact Hlo].
    change (inject_Z 0 <= inject_Z lo). by rewrite <- Zle_Qle. }
  rewrite (proj2 (Qle_bool_iff 0 x) Hx).
  split.
  - rewrite <- (Qfloor_Z lo). by apply Qfloor_resp_le.
  - rewrite <- (Qfloor_Z hi). by apply Qfloor_resp_le.
Qed.

Lemma weights_cases criteria :
  weights criteria = (0.8, 0.2) ∨ weights criteria = (0.2, 0.8) ∨
  weights criteria = (0.5, 0.5).
Proof.
  unfold weights. destruct (String.eqb criteria "time"); [auto|].
  destruct (String.eqb criteria "emissions"); auto.
Qed.

Lemma score_value_bounds criteria mt xt me xe d e :
  mt <= d → d <= xt → me <= e → e <= xe →
  (0 <= score_value (weights criteria).1 (weights criteria).2
          mt (Qmax 1 (xt - mt)) me (Qmax 0.1 (xe - me)) d e <= 100)%Z.
Proof.
  intros H1 H2 H3 H4.
  rewrite (score_value_formula _ _ mt mt xt xt me me xe xe) by reflexivity.
  unfold weighted_score.
  destruct (unit_score (d - mt) (Qmax 1 (xt - mt))) as [Ht0 Ht1].
  { lra. }
  { eapply Qle_trans; [|apply Q.le_max_r]. lra. }
  { by apply Qmax_floor_pos. }
  destruct (unit_score (e - me) (Qmax 0.1 (xe - me))) as [He0 He1].
  { lra. }
  { eapply Qle_trans; [|apply Q.le_max_r]. lra. }
  { by apply Qmax_floor_pos. }
  set (ts := 1 - (d - mt) / Qmax 1 (xt - mt)) in *.
  set (es := 1 - (e - me) / Qmax 0.1 (xe - me)) in *.
  apply py_int_bounds; [| |done].
  all: destruct (weights_cases criteria) as [->|[->| ->]]; simpl fst; simpl snd;
    change (inject_Z 0) with 0; change (inject_Z 100) with 100; lra.
Qed.

(** A property of the scored form of every input route holds for every
    route that the scorer returns. *)
Lemma score_routes_forall routes criteria ds es (P : route → Prop) :
  typed_as routes ds es →
  (∀ r d e, In d ds → In e es →
     duration_seconds r = VNum d → emissions_kg_co2 r = Some e →
     P (score_one (weights criteria).1 (weights criteria).2
          (py_min (hd 0 ds) (tl ds))
          (Qmax 1 (py_max (hd 0 ds) (tl ds) - py_min (hd 0 ds) (tl ds)))
          (py_min (hd 0 es) (tl es))
          (Qmax 0.1 (py_max (hd 0 es) (tl es) - py_min (hd 0 es) (tl es)))
          (r, d, e)).2) →
  ∃ out, _score_routes routes criteria = Ok out ∧ Forall P out.
Proof.
  intros Ht HP.
  exists (map snd (sorted_desc (decorate routes criteria ds es))).
  split; [by apply score_routes_unfold|].
  assert (map snd (sorted_desc (decorate routes criteria ds es))
          ≡ₚ map snd (decorate routes criteria ds es)) as ->
    by apply Permutation_map, sorted_desc_perm.
  destruct (typed_as_zip _ _ _ Ht) as [_ Hz]. rewrite Forall_forall in Hz.
  unfold decorate. apply Forall_forall. intros r Hr.
  apply list_elem_of_In, in_map_iff in Hr as (p & <- & Hp).
  apply in_map_iff in Hp as ([[r d] e] & <- & Hc).
  apply list_elem_of_In in Hc. destruct (Hz _ Hc) as [Hd He]. simpl in Hd, He.
  apply HP; [| |done..].
  - apply list_elem_of_In. eapply elem_of_zip_r, elem_of_zip_l, Hc.
  - apply list_elem_of_In. eapply elem_of_zip_r, Hc.
Qed.

Lemma in_extrema d ds :
  In d ds →
  py_min (hd 0 ds) (tl ds) <= d ∧ d <= py_max (hd 0 ds) (tl ds).
Proof.
  intros Hin. destruct ds as [|x xs]; [done|]. simpl hd; simpl tl.
  destruct (py_min_spec x xs) as [_ Hmin], (py_max_spec x xs) as [_ Hmax].
  rewrite Forall_forall in Hmin, Hmax.
  split; [apply Hmin | apply Hmax]; by apply list_elem_of_In.
Qed.

Lemma recommendation_tier s : tier_of s (Some (recommendation_of s)).
Proof.
  unfold tier_of, recommendation_of.
  destruct (Z.leb_spec 80 s); [|destruct (Z.leb_spec 60 s)];
    split_and!; split; first [done | lia | intros; exfalso; lia].
Qed.

(** X1.  Whenever the candidate routes carry numeric durations and
    emissions, the scorer returns, and every returned route has an integer
    score between 0 and 100 together with the label of its tier: "Highly
    Recommended" exactly from 80, "Recommended" exactly from 60 to 79,
    "Alternative Option" exactly below 60. *)
Theorem score_routes_bounds routes criteria ds es :
  map duration_seconds routes = map VNum ds →
  map emissions_kg_co2 routes = map Some es →
  ∃ out,
    _score_routes routes criteria = Ok out ∧
    Forall (λ r, ∃ s, score r = Some s ∧ (0 <= s <= 100)%Z ∧
                      tier_of s (recommendation r)) out.
Proof.
  intros Hd He. apply (score_routes_forall routes criteria ds es); [done|].
  intros r d e Hind Hine _ _. simpl. eexists. split; [reflexivity|]. split.
  - destruct (in_extrema d ds Hind), (in_extrema e es Hine).
    by apply score_value_bounds.
  - apply recommendation_tier.
Qed.

(** X1 on the three candidates of 0 s, 5 s and 8 s. *)
Lemma score_routes_bounds_witness :
  ∃ out,
    _score_routes three_candidates "balanced" = Ok out ∧
    Forall (λ r, ∃ s, score r = Some s ∧ (0 <= s <= 100)%Z ∧
                      tier_of s (recommendation r)) out.
Proof.
  apply (score_routes_bounds three_candidates "balanced" [0; 5; 8] [1; 1; 1]);
    reflexivity.
Defined.

(** X2.  A route that is at once the fastest and the cleanest of the
    candidate set is scored 100 and labelled "Highly Recommended", under
    every optimization priority. *)
Theorem score_routes_best routes criteria ds es tmin emin :
  map duration_seconds routes = map VNum ds →
  map emissions_kg_co2 routes = map Some es →
  is_min_of tmin ds → is_min_of emin es →
  ∃ out,
    _score_routes routes criteria = Ok out ∧
    Forall (λ r, ∀ d e,
              duration_seconds r = VNum d → emissions_kg_co2 r = Some e →
              d == tmin → e == emin →
              score r = Some 100%Z ∧
              recommendation r = Some "Highly Recommended"%string) out.
Proof.
  intros Hd He Htmin Hemin.
  apply (score_routes_forall routes criteria ds es); [done|].
  intros r d e Hind Hine Hrd Hre d' e' Hd' He' Edt Eem.
  simpl in Hd', He'. rewrite Hrd in Hd'. rewrite Hre in He'.
  injection Hd' as <-. injection He' as <-.
  assert (ds = hd 0 ds :: tl ds) as Eds by (by destruct ds).
  assert (es = hd 0 es :: tl es) as Ees by (by destruct es).
  assert (py_min (hd 0 ds) (tl ds) == tmin) as Emt.
  { eapply is_min_of_unique; [|exact Htmin]. rewrite Eds at 3.
    apply py_min_spec. }
  assert (py_min (hd 0 es) (tl es) == emin) as Eme.
  { eapply is_min_of_unique; [|exact Hemin]. rewrite Ees at 3.
    apply py_min_spec. }
  assert (score_value (weights criteria).1 (weights criteria).2
            (py_min (hd 0 ds) (tl ds))
            (Qmax 1 (py_max (hd 0 ds) (tl ds) - py_min (hd 0 ds) (tl ds)))
            (py_min (hd 0 es) (tl es))
            (Qmax 0.1 (py_max (hd 0 es) (tl es) - py_min (hd 0 es) (tl es)))
            d e = 100%Z) as Hs.
  { rewrite (score_value_formula _ _ _ tmin _ (py_max (hd 0 ds) (tl ds))
               _ emin _ (py_max (hd 0 es) (tl es)));
      [|done|reflexivity|done|reflexivity].
    assert (weighted_score ((weights criteria).1, (weights criteria).2)
              tmin (py_max (hd 0 ds) (tl ds)) emin
              (py_max (hd 0 es) (tl es)) d e
            == 100) as ->.
    { unfold weighted_score. rewrite Edt, Eem. simpl fst; simpl snd.
      destruct (weights_cases criteria) as [->|[->| ->]]; simpl fst; simpl snd;
        unfold Qdiv; ring. }
    reflexivity. }
  simpl. rewrite Hs. done.
Qed.

(** X2 on four candidates with equal emissions, ranked by emissions: the
    0 s route is the best on both counts. *)
Lemma score_routes_best_witness :
  ∃ out,
    _score_routes tied_candidates "emissions" = Ok out ∧
    Forall (λ r, ∀ d e,
              duration_seconds r = VNum d → emissions_kg_co2 r = Some e →
              d == 0 → e == 1 →
              score r = Some 100%Z ∧
              recommendation r = Some "Highly Recommended"%string) out.
Proof.
  apply (score_routes_best tied_candidates "emissions"
           [8; 5; 0; 5] [1; 1; 1; 1] 0 1); [reflexivity|reflexivity| |];
    extremum.
Defined.

(** X3.  One route whose duration is not a number makes the scorer raise
    a [TypeError] for the whole candidate set; no route is scored. *)
Theorem score_routes_type_error routes criteria :
  Exists (λ r, ∀ q, duration_seconds r ≠ VNum q) routes →
  ∃ msg, _score_routes routes criteria = Raise (TypeError msg).
Proof.
  intros Hex. unfold _score_routes.
  destruct routes as [|r0 routes]; [by apply Exists_nil in Hex|].
  destruct (weights criteria) as [tw ew].
  assert (∃ msg, exc_mapM duration_of (r0 :: routes) = Raise (TypeError msg))
    as [msg ->]; [|by exists msg].
  induction Hex as [r l Hr|r l Hex IH].
  - simpl. unfold duration_of at 1.
    destruct (duration_seconds r) as [|q| |] eqn:E; simpl; eauto.
    by destruct (Hr q).
  - simpl. destruct (duration_of r) as [d|e] eqn:E; simpl.
    + destruct IH as [msg ->]. simpl. eauto.
    + unfold duration_of in E. destruct (duration_seconds r); simpl in E;
        try discriminate; injection E as <-; eauto.
Qed.

(** X3 on two routes, the second with the duration "25 mins". *)
Lemma score_routes_type_error_witness :
  ∃ msg,
    _score_routes [leg "a" (VNum 15000) (VNum 1500);
                   leg "b" (VNum 15500) (VStr "25 mins")] "time"
    = Raise (TypeError msg).
Proof.
  apply score_routes_type_error.
  apply Exists_cons_tl, Exists_cons_hd. intros q. discriminate.
Defined.

(** ** Normalisation and the placeholder emissions model *)

Lemma exc_mapM_inv {A B} (f : A → exc B) (l : list A) (ys : list B) :
  exc_mapM f l = Ok ys → Forall2 (λ x y, f x = Ok y) l ys.
Proof.
  revert ys. induction l as [|x l IH]; simpl; intros ys H.
  - injection H as <-. constructor.
  - destruct (f x) as [y|e] eqn:Hx; simpl in H; [|done].
    destruct (exc_mapM f l) as [ys'|e] eqn:Hl; simpl in H; [|done].
    injection H as <-. constructor; [done|]. by apply IH.
Qed.

Lemma exc_mapM_length {A B} (f : A → exc B) l ys :
  exc_mapM f l = Ok ys → length ys = length l.
Proof. intros H. symmetry. eapply Forall2_length, exc_mapM_inv, H. Qed.

(** The first element on which [f] raises aborts the whole loop. *)
Lemma exc_mapM_raise {A B} (f : A → exc B) (l : list A) (K : exn → Prop) :
  (∀ x e, f x = Raise e → K e) →
  Exists (λ x, ∃ e, f x = Raise e) l →
  ∃ e, exc_mapM f l = Raise e ∧ K e.
Proof.
  intros HK. induction 1 as [x l [e Hx]|x l _ (e & IH & Ke)]; simpl.
  - rewrite Hx. simpl. eauto.
  - destruct (f x) as [y|e'] eqn:Hx; simpl.
    + rewrite IH. simpl. eauto.
    + eauto.
Qed.

Lemma normalize_route_dict rr d :
  summary rr = VDict d →
  ∃ r, normalize_route rr = Ok r ∧ normalized_from rr r.
Proof.
  intros Hs. unfold normalize_route. rewrite Hs. simpl.
  eexists. split; [reflexivity|]. exists d. by split_and!.
Qed.

(** X4.  When every provider route has a dict as its summary, the
    normalizer returns one route per provider route, in the order of the
    concatenated provider lists (empty lists contribute nothing).  Each
    keeps identifier, provider, geometry and raw data; distance, duration
    and traffic delay are read from the summary and are 0 when the key is
    missing; no emissions, score or recommendation is set yet. *)
Theorem normalize_routes_defaults (route_lists : list (list raw_route)) :
  Forall (λ rr, ∃ d, summary rr = VDict d) (concat route_lists) →
  ∃ out, _normalize_routes route_lists = Ok out ∧
         Forall2 normalized_from (concat route_lists) out.
Proof.
  unfold _normalize_routes. generalize (concat route_lists) as l.
  induction 1 as [|rr l [d Hs] _ (out & IH & IH2)]; simpl.
  - exists []. split; [done|constructor].
  - destruct (normalize_route_dict rr d Hs) as (r & -> & Hr).
    rewrite IH. simpl. exists (r :: out). split; [done|]. by constructor.
Qed.

(** X4 on a TomTom route with an empty summary, an empty provider list and
    an OSRM route. *)
Lemma normalize_routes_defaults_witness :
  ∃ out,
    _normalize_routes
      [[bare_route "tt-0" (VDict ∅)]; [];
       [bare_route "osrm-0" (summary_dict (VNum 15000) (VNum 1500) (VNum 0))]]
    = Ok out ∧
    Forall2 normalized_from
      [bare_route "tt-0" (VDict ∅);
       bare_route "osrm-0" (summary_dict (VNum 15000) (VNum 1500) (VNum 0))]
      out.
Proof.
  apply (normalize_routes_defaults
           [[bare_route "tt-0" (VDict ∅)]; [];
            [bare_route "osrm-0"
               (summary_dict (VNum 15000) (VNum 1500) (VNum 0))]]).
  repeat constructor; eexists; reflexivity.
Defined.

(** X5.  One provider route whose summary is not a dict makes the
    normalizer raise an [AttributeError]; the routes of the other
    providers are lost with it. *)
Theorem normalize_routes_aborts (route_lists : list (list raw_route)) :
  Exists (λ rr, ∀ d, summary rr ≠ VDict d) (concat route_lists) →
  ∃ msg, _normalize_routes route_lists = Raise (AttributeError msg).
Proof.
  intros Hex. unfold _normalize_routes.
  destruct (exc_mapM_raise normalize_route (concat route_lists)
              (λ e, ∃ msg, e = AttributeError msg)) as (e & He & msg & Hm).
  - intros rr e. unfold normalize_route.
    destruct (summary rr); simpl; intros H;
      first [discriminate | injection H as <-; eauto].
  - eapply Exists_impl; [exact Hex|]. intros rr Hr. simpl in Hr.
    unfold normalize_route.
    destruct (summary rr) as [| | |d] eqn:E; simpl; eauto. by destruct (Hr d).
  - subst e. eauto.
Qed.

(** X5 on a sound TomTom route followed by a Google route whose summary is
    the text "n/a". *)
Lemma normalize_routes_aborts_witness :
  ∃ msg,
    _normalize_routes
      [[bare_route "tt-0" (VDict ∅)]; [bare_route "gm-0" (VStr "n/a")]]
    = Raise (AttributeError msg).
Proof.
  apply normalize_routes_aborts.
  apply Exists_cons_tl, Exists_cons_hd. intros d. discriminate.
Defined.

Lemma py_round_error y : Qabs (inject_Z (py_round y) - y) <= 1 # 2.
Proof.
  unfold py_round.
  pose proof (Qfloor_le y) as Hf. pose proof (Qlt_floor y) as Hf1.
  rewrite inject_Z_plus in Hf1. change (inject_Z 1) with 1 in Hf1.
  apply Qabs_Qle_condition.
  destruct (Qcompare (y - inject_Z (Qfloor y)) (1 # 2)) eqn:E.
  - apply Qeq_alt in E.
    destruct (Z.even (Qfloor y)); rewrite ?inject_Z_plus;
      change (inject_Z 1) with 1; split; lra.
  - apply Qlt_alt in E. split; lra.
  - apply Qgt_alt in E. rewrite inject_Z_plus. change (inject_Z 1) with 1.
    split; lra.
Qed.

Lemma py_round2_error x : Qabs (py_round2 x - x) <= 1 # 200.
Proof.
  unfold py_round2. pose proof (py_round_error (x * 100)) as H.
  apply Qabs_Qle_condition in H. apply Qabs_Qle_condition.
  set (n := inject_Z (py_round (x * 100))) in *.
  assert (n / 100 == n * (1 # 100)) as -> by (unfold Qdiv; reflexivity).
  split; lra.
Qed.

Lemma emission_rate_spec vehicle_type :
  vehicle_rate vehicle_type (emission_rate vehicle_type).
Proof.
  unfold vehicle_rate, emission_rate.
  destruct (String.eqb_spec vehicle_type "delivery_van") as [->|H1].
  { split_and!; done. }
  destruct (String.eqb_spec vehicle_type "cargo_truck") as [->|H2].
  { split_and!; done. }
  destruct (String.eqb_spec vehicle_type "electric_van") as [->|H3].
  { split_and!; done. }
  split_and!; done.
Qed.

(** X6.  When every route has a numeric distance, the placeholder
    emissions stage returns the routes in their order, each changed only
    in its [emissions_kg_co2], which lies within 0.005 kg of
    [distance / 1000 × rate]: 0.5 kg/km for "cargo_truck", 0.05 kg/km for
    "electric_van" and 0.2 kg/km for "delivery_van" and every other
    vehicle type. *)
Theorem calculate_emissions_rounded routes vehicle_type ds :
  map distance_meters routes = map VNum ds →
  ∃ rate out,
    vehicle_rate vehicle_type rate ∧
    _calculate_emissions routes vehicle_type = Ok out ∧
    Forall2 (λ r r', ∃ d e,
               distance_meters r = VNum d ∧ r' = set_emissions r e ∧
               Qabs (e - d / 1000 * rate) <= 1 # 200) routes out.
Proof.
  intros Hd. exists (emission_rate vehicle_type).
  unfold _calculate_emissions. apply map_eq_Forall2 in Hd.
  assert (∃ out,
    exc_mapM
      (λ r, d ← as_num (distance_meters r);
            Ok (set_emissions r
                  (py_round2 (d / 1000 * emission_rate vehicle_type)))) routes
    = Ok out ∧
    Forall2 (λ r r', ∃ d e,
               distance_meters r = VNum d ∧ r' = set_emissions r e ∧
               Qabs (e - d / 1000 * emission_rate vehicle_type) <= 1 # 200)
            routes out) as (out & H1 & H2).
  { induction Hd as [|r d routes ds Hr _ (out & IH & IH2)]; simpl.
    - exists []. split; [done|constructor].
    - rewrite Hr. simpl. rewrite IH. simpl. eexists. split; [reflexivity|].
      constructor; [|done]. exists d. eexists. split_and!; [done..|].
      apply py_round2_error. }
  exists out. split_and!; [apply emission_rate_spec|done..].
Qed.

(** X6 on a cargo truck over 12 345 m. *)
Lemma calculate_emissions_rounded_witness :
  ∃ rate out,
    vehicle_rate "cargo_truck" rate ∧
    _calculate_emissions [leg "a" (VNum 12345) (VNum 900)] "cargo_truck"
    = Ok out ∧
    Forall2 (λ r r', ∃ d e,
               distance_meters r = VNum d ∧ r' = set_emissions r e ∧
               Qabs (e - d / 1000 * rate) <= 1 # 200)
      [leg "a" (VNum 12345) (VNum 900)] out.
Proof.
  apply (calculate_emissions_rounded [leg "a" (VNum 12345) (VNum 900)]
           "cargo_truck" [12345]).
  reflexivity.
Defined.

(** X7.  One route whose distance is not a number makes the placeholder
    emissions stage raise a [TypeError]. *)
Theorem calculate_emissions_type_error routes vehicle_type :
  Exists (λ r, ∀ q, distance_meters r ≠ VNum q) routes →
  ∃ msg, _calculate_emissions routes vehicle_type = Raise (TypeError msg).
Proof.
  intros Hex. unfold _calculate_emissions.
  edestruct (exc_mapM_raise
              (λ r, d ← as_num (distance_meters r);
                    Ok (set_emissions r
                          (py_round2 (d / 1000 * emission_rate vehicle_type))))
              routes (λ e, ∃ msg, e = TypeError msg)) as (e & He & msg & Hm).
  - intros r e. destruct (distance_meters r); simpl; intros H;
      first [discriminate | injection H as <-; eauto].
  - eapply Exists_impl; [exact Hex|]. intros r Hr. simpl in Hr.
    destruct (distance_meters r) as [|q| |] eqn:E; simpl; eauto.
    by destruct (Hr q).
  - subst e. eauto.
Qed.

(** X7 on a route whose distance is the text "15 km". *)
Lemma calculate_emissions_type_error_witness :
  ∃ msg,
    _calculate_emissions [leg "a" (VStr "15 km") (VNum 900)] "delivery_van"
    = Raise (TypeError msg).
Proof.
  apply calculate_emissions_type_error.
  apply Exists_cons_hd. intros q. discriminate.
Defined.

(** ** Route area, weather summary and the Google adapter *)

(** X8.  The route area is the rectangle, listed south-west, south-east,
    north-east, north-west, whose sides lie exactly 0.05 degrees outside
    the smallest and the largest latitude and longitude among origin,
    destination and stops; every one of these points lies strictly inside
    it. *)
Theorem route_area_contains origin destination stops :
  let points := origin :: destination :: default [] stops in
  ∃ min_lat max_lat min_lng max_lng,
    _get_route_area origin destination stops
    = [(min_lat, min_lng); (min_lat, max_lng);
       (max_lat, max_lng); (max_lat, min_lng)] ∧
    is_min_of (min_lat + 0.05) (map fst points) ∧
    is_max_of (max_lat - 0.05) (map fst points) ∧
    is_min_of (min_lng + 0.05) (map snd points) ∧
    is_max_of (max_lng - 0.05) (map snd points) ∧
    Forall (λ p : point,
              min_lat < p.1 ∧ p.1 < max_lat ∧
              min_lng < p.2 ∧ p.2 < max_lng) points.
Proof.
  intros points. unfold _get_route_area. simpl hd; simpl tl.
  set (lats := map fst (default [] stops)).
  set (lngs := map snd (default [] stops)).
  eexists _, _, _, _. split; [reflexivity|].
  change (map fst ([origin; destination] ++ default [] stops))
    with (origin.1 :: destination.1 :: lats).
  change (map snd ([origin; destination] ++ default [] stops))
    with (origin.2 :: destination.2 :: lngs).
  simpl hd; simpl tl.
  pose proof (py_min_spec origin.1 (destination.1 :: lats)) as Hmin1.
  pose proof (py_max_spec origin.1 (destination.1 :: lats)) as Hmax1.
  pose proof (py_min_spec origin.2 (destination.2 :: lngs)) as Hmin2.
  pose proof (py_max_spec origin.2 (destination.2 :: lngs)) as Hmax2.
  change (map fst points) with (origin.1 :: destination.1 :: lats).
  change (map snd points) with (origin.2 :: destination.2 :: lngs).
  set (a := py_min origin.1 (destination.1 :: lats)) in *.
  set (b := py_max origin.1 (destination.1 :: lats)) in *.
  set (c := py_min origin.2 (destination.2 :: lngs)) in *.
  set (d := py_max origin.2 (destination.2 :: lngs)) in *.
  assert (a - 0.05 + 0.05 == a) as Ea by ring.
  assert (b + 0.05 - 0.05 == b) as Eb by ring.
  assert (c - 0.05 + 0.05 == c) as Ec by ring.
  assert (d + 0.05 - 0.05 == d) as Ed by ring.
  split_and!.
  - destruct Hmin1 as [H1 H2]. split.
    + eapply Exists_impl; [exact H1|]. intros x Hx. simpl. by rewrite Ea.
    + eapply Forall_impl; [exact H2|]. intros x Hx. simpl. by rewrite Ea.
  - destruct Hmax1 as [H1 H2]. split.
    + eapply Exists_impl; [exact H1|]. intros x Hx. simpl. by rewrite Eb.
    + eapply Forall_impl; [exact H2|]. intros x Hx. simpl. by rewrite Eb.
  - destruct Hmin2 as [H1 H2]. split.
    + eapply Exists_impl; [exact H1|]. intros x Hx. simpl. by rewrite Ec.
    + eapply Forall_impl; [exact H2|]. intros x Hx. simpl. by rewrite Ec.
  - destruct Hmax2 as [H1 H2]. split.
    + eapply Exists_impl; [exact H1|]. intros x Hx. simpl. by rewrite Ed.
    + eapply Forall_impl; [exact H2|]. intros x Hx. simpl. by rewrite Ed.
  - apply Forall_forall. intros p Hp.
    destruct Hmin1 as [_ L1], Hmax1 as [_ U1], Hmin2 as [_ L2], Hmax2 as [_ U2].
    rewrite Forall_forall in L1, U1, L2, U2.
    assert (p.1 ∈ origin.1 :: destination.1 :: lats) as H1
      by (apply (list_elem_of_fmap_2 fst) in Hp; exact Hp).
    assert (p.2 ∈ origin.2 :: destination.2 :: lngs) as H2
      by (apply (list_elem_of_fmap_2 snd) in Hp; exact Hp).
    pose proof (L1 _ H1). pose proof (U1 _ H1).
    pose proof (L2 _ H2). pose proof (U2 _ H2).
    split_and!; lra.
Qed.

Lemma eq_str_status_false (w : gmap string pyval) s :
  w !! "status" ≠ Some (VStr s) →
  eq_str (default VNone (w !! "status")) s = false.
Proof.
  intros H. destruct (w !! "status") as [[| |t|]|]; simpl; try done.
  apply String.eqb_neq. congruence.
Qed.

(** X9.  For weather data that is not flagged as an error and whose
    ["data"] is a dict, the summary reports the air-quality index found
    there, or 45 when the dict has no ["aqi"], with status "good" exactly
    below 50, "moderate" exactly from 50 to below 100, and "poor" exactly
    from 100. *)
Theorem summarize_weather_buckets (w d : gmap string pyval) aqi :
  w !! "status" ≠ Some (VStr "error") →
  w !! "data" = Some (VDict d) →
  default (VNum 45) (d !! "aqi") = VNum aqi →
  ∃ cs,
    _summarize_weather (VDict w) = Ok cs ∧
    cs_aqi cs = Some aqi ∧
    (cs_status cs = "good"%string ↔ aqi < 50) ∧
    (cs_status cs = "moderate"%string ↔ 50 <= aqi ∧ aqi < 100) ∧
    (cs_status cs = "poor"%string ↔ 100 <= aqi).
Proof.
  intros Hst Hdata Haqi. unfold _summarize_weather.
  cbn [get_default mbind exc_bind bind]. rewrite (eq_str_status_false _ _ Hst).
  cbn [contains mbind exc_bind bind]. rewrite Hdata.
  rewrite bool_decide_eq_true_2 by eauto.
  cbn [getitem mbind exc_bind bind]. rewrite Hdata.
  cbn [get_default mbind exc_bind bind]. rewrite Haqi.
  cbn [as_num mbind exc_bind bind].
  destruct (Qlt_le_dec aqi 50) as [H1|H1];
    [|destruct (Qlt_le_dec aqi 100) as [H2|H2]];
    (eexists; split; [reflexivity|]); cbn [cs_aqi cs_status];
    (split; [done|]); split_and!; split; intros H;
    first [done | discriminate | lra | (destruct H; lra) | (split; lra)].
Qed.

(** X9 on a reading of 75. *)
Lemma summarize_weather_buckets_witness :
  ∃ cs,
    _summarize_weather
      (VDict (<["status" := VStr "ok"]>
                {["data" := VDict {["aqi" := VNum 75]}]}))
    = Ok cs ∧
    cs_aqi cs = Some 75 ∧ cs_status cs = "moderate"%string.
Proof.
  destruct (summarize_weather_buckets
              (<["status" := VStr "ok"]>
                 {["data" := VDict {["aqi" := VNum 75]}]})
              {["aqi" := VNum 75]} 75)
    as (cs & Hcs & Haqi & _ & Hmoderate & _);
    [discriminate | reflexivity | reflexivity |].
  exists cs. split_and!; [done..|].
  apply Hmoderate. split; q_order.
Defined.

Lemma enumerate_snd {A} (l : list A) : (enumerate l).*2 = l.
Proof.
  unfold enumerate. rewrite fmap_imap.
  rewrite (imap_ext _ (const id) l) by done.
  by rewrite imap_const, list_fmap_id.
Qed.

(** X10.  The Google adapter is all or nothing.  When one route of the
    response reports a duration or a duration in traffic that is not a
    number, the adapter returns no route at all, the sound routes of the
    same response included.  When all of them are numbers, it returns one
    provider route per response route, in order, each with provider
    "google", the response's distance and duration, and the traffic delay
    [max(0, duration_in_traffic - duration)]. *)
Theorem google_routes_all_or_nothing (clients : api_clients)
    (origin destination : point) (stops : option (list point))
    (vehicle_type departure_time : string)
    (get_directions : point → point → option (list point) → string →
                      exc (list google_route))
    (rs : list google_route) :
  google_maps clients = Some get_directions →
  get_directions origin destination stops departure_time = Ok rs →
  (Exists (λ r, (∀ q, gm_duration r ≠ VNum q) ∨
                (∀ q, gm_duration_in_traffic r ≠ VNum q)) rs →
   _get_google_routes clients origin destination stops vehicle_type
     departure_time = []) ∧
  (Forall (λ r, ∃ t tt, gm_duration r = VNum t ∧
                        gm_duration_in_traffic r = VNum tt) rs →
   Forall2 google_raw rs
     (_get_google_routes clients origin destination stops vehicle_type
        departure_time)).
Proof.
  intros Hg Hrs. unfold _get_google_routes. rewrite Hg, Hrs.
  cbn [mbind exc_bind bind]. clear Hg Hrs.
  set (F := λ ir : nat * google_route,
         in_traffic ← as_num (gm_duration_in_traffic ir.2);
         plain ← as_num (gm_duration ir.2);
         Ok {| raw_provider := "google";
               route_id := "gm-" +:+ pretty ir.1;
               summary := summary_dict (gm_distance ir.2) (gm_duration ir.2)
                            (VNum (Qmax 0 (in_traffic - plain)));
               raw_geometry := gm_polyline ir.2;
               raw := gm_raw ir.2 |}).
  assert (∀ l : list (nat * google_route),
            (Exists (λ r, (∀ q, gm_duration r ≠ VNum q) ∨
                          (∀ q, gm_duration_in_traffic r ≠ VNum q)) l.*2 →
             try_except (exc_mapM F l) (λ _, []) = []) ∧
            (Forall (λ r, ∃ t tt, gm_duration r = VNum t ∧
                                  gm_duration_in_traffic r = VNum tt) l.*2 →
             Forall2 google_raw l.*2 (try_except (exc_mapM F l) (λ _, []))))
    as H.
  2:{ specialize (H (enumerate rs)). by rewrite enumerate_snd in H. }
  intros l. split.
  - intros Hex.
    edestruct (exc_mapM_raise F l (λ _, True)) as (e & -> & _); [done| |done].
    induction l as [|[i r] l IH]; [by apply Exists_nil in Hex|].
    cbn [fmap list_fmap snd] in Hex. apply Exists_cons in Hex as [Hr|Hex].
    + apply Exists_cons_hd. unfold F. cbn [snd]. destruct Hr as [Hr|Hr].
      * destruct (gm_duration_in_traffic r) as [|tt| |];
          cbn [as_num mbind exc_bind bind]; eauto.
        destruct (gm_duration r) as [|t| |] eqn:E;
          cbn [as_num mbind exc_bind bind]; eauto. by destruct (Hr t).
      * destruct (gm_duration_in_traffic r) as [|tt| |] eqn:E;
          cbn [as_num mbind exc_bind bind]; eauto. by destruct (Hr tt).
    + apply Exists_cons_tl. by apply IH.
  - intros Hall.
    assert (∃ ys, exc_mapM F l = Ok ys ∧ Forall2 google_raw l.*2 ys)
      as (ys & -> & Hys); [|exact Hys].
    induction l as [|[i r] l IH]; cbn [fmap list_fmap snd] in *.
    + exists []. split; [done|constructor].
    + apply Forall_cons in Hall as [(t & tt & Ht & Htt) Hall].
      destruct (IH Hall) as (ys & Hys & IH2).
      cbn [exc_mapM]. unfold F at 1. cbn [snd].
      rewrite Ht, Htt. cbn [as_num mbind exc_bind bind]. rewrite Hys.
      cbn [mbind exc_bind bind]. eexists. split; [reflexivity|].
      constructor; [|exact IH2].
      exists t, tt, (Qmax 0 (tt - t)).
      cbn [raw_provider summary raw_geometry snd].
      rewrite Ht. split_and!; try done.
      * apply Q.le_max_l.
      * apply Q.le_max_r.
      * destruct (Q.max_spec 0 (tt - t)) as [[_ ->]|[_ ->]];
          [by right|by left].
Qed.

(** X10 on a response of two routes, the second with the duration
    "25 mins", and on the response cut down to its sound first route. *)
Lemma google_routes_all_or_nothing_witness :
  _get_google_routes (google_only google_one_bad) chennai_central
    chennai_airport None "delivery_van" "now" = [] ∧
  Forall2 google_raw (take 1 google_one_bad)
    (_get_google_routes (google_only (take 1 google_one_bad)) chennai_central
       chennai_airport None "delivery_van" "now").
Proof.
  split.
  - apply (google_routes_all_or_nothing (google_only google_one_bad)
             chennai_central chennai_airport None "delivery_van" "now"
             (λ _ _ _ _, Ok google_one_bad) google_one_bad);
      [reflexivity | reflexivity |].
    apply Exists_cons_tl, Exists_cons_hd. left. intros q. discriminate.
  - apply (google_routes_all_or_nothing
             (google_only (take 1 google_one_bad))
             chennai_central chennai_airport None "delivery_van" "now"
             (λ _ _ _ _, Ok (take 1 google_one_bad)) (take 1 google_one_bad));
      [reflexivity | reflexivity |].
    repeat constructor. eexists _, _. split; reflexivity.
Defined.

(** ** Further properties of the orchestrator *)

Lemma score_routes_ok_inv routes criteria out :
  _score_routes routes criteria = Ok out →
  routes = [] ∧ out = [] ∨ ∃ ds es, typed_as routes ds es.
Proof.
  unfold _score_routes. destruct routes as [|r0 routes].
  { intros [= <-]. by left. }
  destruct (weights criteria) as [tw ew]. intros H. right.
  apply bind_ok in H as (ds & Hds & H).
  apply bind_ok in H as (es & Hes & _).
  exists ds, es. split.
  - apply exc_mapM_inv in Hds. revert Hds.
    generalize (r0 :: routes) as l. intros l Hds.
    induction Hds as [|r d l ds' Hr _ IH]; [done|]. simpl. f_equal; [|done].
    by apply as_num_ok.
  - apply exc_mapM_inv in Hes. revert Hes.
    generalize (r0 :: routes) as l. intros l Hes.
    induction Hes as [|r e l es' Hr _ IH]; [done|]. simpl. f_equal; [|done].
    unfold emissions_of in Hr. destruct (emissions_kg_co2 r); congruence.
Qed.

Lemma score_routes_length routes criteria out :
  _score_routes routes criteria = Ok out → length out = length routes.
Proof.
  intros H. destruct (score_routes_ok_inv _ _ _ H) as [[-> ->]|(ds & es & Ht)].
  { done. }
  destruct (score_routes_ranked _ criteria _ _ Ht) as (out' & Ho & _ & Hp).
  rewrite H in Ho. injection Ho as <-.
  rewrite <- (length_map (λ _, tt) out), <- (length_map (λ _, tt) routes).
  by apply Permutation_length, Hp.
Qed.

Lemma slice_to_take {A} (l : list A) n : ∃ k, slice_to l n = take k l.
Proof. unfold slice_to. destruct (0 <=? n)%Z; eauto. Qed.

Lemma StronglySorted_take {A} (R : A → A → Prop) k l :
  StronglySorted R l → StronglySorted R (take k l).
Proof.
  intros H. revert k. induction H as [|x l _ IH Hx]; intros [|k]; simpl;
    constructor; [apply IH | by apply Forall_take].
Qed.

Lemma summarize_weather_malformed (w : gmap string pyval) v :
  w !! "status" ≠ Some (VStr "error") →
  w !! "data" = Some v → v ≠ VNone → (∀ d, v ≠ VDict d) →
  ∃ e, _summarize_weather (VDict w) = Raise e.
Proof.
  intros Hst Hdata Hnone Hdict. unfold _summarize_weather.
  cbn [get_default mbind exc_bind bind]. rewrite (eq_str_status_false _ _ Hst).
  cbn [contains mbind exc_bind bind]. rewrite Hdata.
  rewrite bool_decide_eq_true_2 by eauto.
  cbn [getitem mbind exc_bind bind]. rewrite Hdata.
  destruct v as [|q|s|d]; simpl; eauto; [done|by destruct (Hdict d)].
Qed.

(** Provider routes with a numeric length and travel time pass through
    normalisation, the emissions stage and the scorer. *)
Lemma pipeline_numeric raws vehicle_type criteria :
  Forall (λ rr, ∃ len t delay,
            summary rr = summary_dict (VNum len) (VNum t) delay) raws →
  ∃ normalized with_emissions scored,
    exc_mapM normalize_route raws = Ok normalized ∧
    _calculate_emissions normalized vehicle_type = Ok with_emissions ∧
    _score_routes with_emissions criteria = Ok scored ∧
    map provider scored ≡ₚ map raw_provider raws ∧
    map rid scored ≡ₚ map route_id raws.
Proof.
  intros Hraws.
  assert (∃ normalized with_emissions ds es,
            exc_mapM normalize_route raws = Ok normalized ∧
            _calculate_emissions normalized vehicle_type = Ok with_emissions ∧
            typed_as with_emissions ds es ∧
            map provider with_emissions = map raw_provider raws ∧
            map rid with_emissions = map route_id raws)
    as (normalized & with_emissions & ds & es & Hn & He & Ht & Hp & Hi).
  { unfold _calculate_emissions, typed_as.
    induction Hraws as [|rr raws (len & t & delay & Hs) _
                          (ns & ws & ds & es & Hn & He & [Hd Hes] & Hp & Hi)].
    - exists [], [], [], []. by split_and!.
    - cbn [exc_mapM]. unfold normalize_route at 1. rewrite Hs.
      rewrite summary_dict_length, summary_dict_time, summary_dict_delay.
      cbn [mbind exc_bind bind]. rewrite Hn. cbn [mbind exc_bind bind].
      eexists _, _, (t :: ds), (_ :: es). split; [reflexivity|].
      cbn [exc_mapM distance_meters as_num mbind exc_bind bind].
      rewrite He. cbn [mbind exc_bind bind]. split; [reflexivity|].
      cbn [map set_emissions duration_seconds emissions_kg_co2 provider rid].
      by rewrite Hd, Hes, Hp, Hi. }
  destruct (score_routes_ranked with_emissions criteria ds es Ht)
    as (scored & Hsc & _ & Hthrough).
  exists normalized, with_emissions, scored. split_and!; [done..| |].
  - rewrite <- Hp. by apply Hthrough.
  - rewrite <- Hi. by apply Hthrough.
Qed.

Section Pipeline.
Variable coord_str : Q → string.
Variable haversine_distance : Q → Q → Q → Q → exc Q.

(** What a completed [try] block has done on a cache miss. *)
Lemma optimize_route_body_miss (self : optimizer) (clk : clock)
    (origin destination : point) (stops : option (list point))
    (vehicle_type departure_time criteria : string) (max_alternatives : Z)
    r c :
  _get_from_cache (cache self) (cache_ttl self) (t_lookup clk)
    (_generate_cache_key coord_str origin destination stops
       vehicle_type criteria) = None →
  optimize_route_body coord_str haversine_distance self clk origin destination
    stops vehicle_type departure_time criteria max_alternatives = Ok (r, c) →
  ∃ normalized with_emissions scored,
    normalized ≠ [] ∧
    _calculate_emissions normalized vehicle_type = Ok with_emissions ∧
    _score_routes with_emissions criteria = Ok scored ∧
    status r = "success" ∧
    routes r = slice_to scored max_alternatives ∧
    route_count (meta r) = Some (length (routes r)) ∧
    c = _add_to_cache (cache self) (t_store clk)
          (_generate_cache_key coord_str origin destination stops
             vehicle_type criteria) r.
Proof.
  intros Hmiss. unfold optimize_route_body. rewrite Hmiss. intros H.
  apply bind_ok in H as (normalized & Hnorm & H).
  apply bind_ok in H as (with_emissions & Hem & H).
  apply bind_ok in H as (scored & Hsc & H).
  apply bind_ok in H as (traffic & _ & H).
  apply bind_ok in H as (weather & _ & H).
  injection H as <- <-.
  exists normalized, with_emissions, scored. split_and!; try done.
  intros ->.
  destruct (_get_tomtom_routes _ _ _ _ _ _) as [|? ?];
    [destruct (_get_google_routes _ _ _ _ _ _) as [|? ?];
     [destruct (_get_osrm_routes _ _ _ _ _) as [|? ?]|]|].
  1:{ apply bind_ok in Hnorm as (dummy_routes & Hd & Hnorm).
      unfold _create_dummy_routes in Hd.
      apply bind_ok in Hd as (base & _ & Hd). injection Hd as <-.
      apply exc_mapM_length in Hnorm. simpl in Hnorm. lia. }
  all: apply exc_mapM_length in Hnorm; simpl in Hnorm;
    rewrite ?length_app in Hnorm; simpl in Hnorm; lia.
Qed.

(** On a cache miss, status "success" is the mark of a completed [try]
    block. *)
Lemma optimize_route_success_body (self : optimizer) (clk : clock)
    (origin destination : point) (stops : option (list point))
    (vehicle_type departure_time criteria : string) (max_alternatives : Z)
    result self' :
  _get_from_cache (cache self) (cache_ttl self) (t_lookup clk)
    (_generate_cache_key coord_str origin destination stops
       vehicle_type criteria) = None →
  optimize_route coord_str haversine_distance self clk origin destination
    stops vehicle_type departure_time criteria max_alternatives
  = (result, self') →
  status result = "success" →
  optimize_route_body coord_str haversine_distance self clk origin destination
    stops vehicle_type departure_time criteria max_alternatives
  = Ok (result, cache self') ∧
  clients self' = clients self ∧ cache_ttl self' = cache_ttl self.
Proof.
  intros Hmiss. unfold optimize_route.
  destruct (optimize_route_body _ _ _ _ _ _ _ _ _ _ _) as [[r c]|e]; simpl.
  - intros [= <- <-] _. done.
  - intros [= <- <-]. done.
Qed.

(** X11.  A successful answer is replayed for as long as it is fresh.
    After a call that missed the cache and returned status "success", a
    call for the same origin, destination, stops, vehicle type and
    priority whose lookup happens less than [cache_ttl] seconds after the
    first call stored its result returns that very result and leaves the
    optimizer unchanged.  This holds even when the second call asks for
    another departure time or another number of alternatives, since
    neither is part of the cache key. *)
Theorem optimize_route_repeat (self : optimizer) (clk clk2 : clock)
    (origin destination : point) (stops : option (list point))
    (vehicle_type departure_time departure_time2 criteria : string)
    (max_alternatives max_alternatives2 : Z) result self' :
  _get_from_cache (cache self) (cache_ttl self) (t_lookup clk)
    (_generate_cache_key coord_str origin destination stops
       vehicle_type criteria) = None →
  optimize_route coord_str haversine_distance self clk origin destination
    stops vehicle_type departure_time criteria max_alternatives
  = (result, self') →
  status result = "success" →
  t_lookup clk2 - t_store clk < cache_ttl self →
  optimize_route coord_str haversine_distance self' clk2 origin destination
    stops vehicle_type departure_time2 criteria max_alternatives2
  = (result, self').
Proof.
  intros Hmiss Hcall Hstatus Hfresh.
  destruct (optimize_route_success_body _ _ _ _ _ _ _ _ _ _ _ Hmiss Hcall
              Hstatus) as (Hbody & Hcl & Httl).
  destruct (optimize_route_body_miss _ _ _ _ _ _ _ _ _ _ _ Hmiss Hbody)
    as (_ & _ & _ & _ & _ & _ & _ & _ & _ & Hc).
  assert (_get_from_cache (cache self') (cache_ttl self') (t_lookup clk2)
            (_generate_cache_key coord_str origin destination stops
               vehicle_type criteria) = Some result) as Hhit.
  { unfold _get_from_cache. rewrite Hc. unfold _add_to_cache.
    rewrite lookup_insert_eq. cbn [timestamp data]. rewrite Httl.
    destruct (Qlt_le_dec _ _) as [_|Hle]; [done|lra]. }
  unfold optimize_route, optimize_route_body. rewrite Hhit.
  simpl. by destruct self'.
Qed.

(** X12.  Every successful answer computed on a cache miss is well
    formed: [route_count] is the number of routes returned; for
    [max_alternatives >= 0] there are at most that many routes, and for
    [max_alternatives >= 1] at least one; the routes are in descending
    order of score; and each route has a score between 0 and 100 with the
    label of its tier, an emissions figure and a numeric duration. *)
Theorem optimize_route_success_shape (self : optimizer) (clk : clock)
    (origin destination : point) (stops : option (list point))
    (vehicle_type departure_time criteria : string) (max_alternatives : Z) :
  _get_from_cache (cache self) (cache_ttl self) (t_lookup clk)
    (_generate_cache_key coord_str origin destination stops
       vehicle_type criteria) = None →
  let result :=
    (optimize_route coord_str haversine_distance self clk origin destination
       stops vehicle_type departure_time criteria max_alternatives).1 in
  status result = "success" →
  route_count (meta result) = Some (length (routes result)) ∧
  ((0 <= max_alternatives)%Z →
   (length (routes result) <= Z.to_nat max_alternatives)%nat) ∧
  ((1 <= max_alternatives)%Z → routes result ≠ []) ∧
  StronglySorted desc_by_score (routes result) ∧
  Forall (λ r, ∃ s, score r = Some s ∧ (0 <= s <= 100)%Z ∧
                    tier_of s (recommendation r) ∧
                    is_Some (emissions_kg_co2 r) ∧
                    ∃ t, duration_seconds r = VNum t) (routes result).
Proof.
  intros Hmiss result Hstatus.
  destruct (optimize_route _ _ _ _ _ _ _ _ _ _ _) as [res self'] eqn:Hcall.
  subst result. simpl in *.
  destruct (optimize_route_success_body _ _ _ _ _ _ _ _ _ _ _ Hmiss Hcall
              Hstatus) as (Hbody & _ & _).
  destruct (optimize_route_body_miss _ _ _ _ _ _ _ _ _ _ _ Hmiss Hbody)
    as (normalized & with_emissions & scored & Hne & Hem & Hsc & _ & Hr &
        Hcount & _).
  rewrite Hcount, Hr. split; [done|].
  assert (StronglySorted desc_by_score scored ∧
          Forall (λ r, ∃ s, score r = Some s ∧ (0 <= s <= 100)%Z ∧
                            tier_of s (recommendation r) ∧
                            is_Some (emissions_kg_co2 r) ∧
                            ∃ t, duration_seconds r = VNum t) scored)
    as [Hsorted Hall].
  { destruct (score_routes_ok_inv _ _ _ Hsc) as [[_ ->]|(ds & es & Ht)].
    { split; constructor. }
    split.
    - destruct (score_routes_ranked _ criteria _ _ Ht) as (out & Ho & Hs & _).
      rewrite Hsc in Ho. by injection Ho as ->.
    - edestruct (score_routes_forall with_emissions criteria ds es)
        as (out & Ho & HP); [exact Ht| |].
      2:{ rewrite Hsc in Ho. injection Ho as <-. exact HP. }
      intros r d e Hind Hine Hrd Hre. simpl. eexists. split; [reflexivity|].
      split; [|split; [|split]].
      + destruct (in_extrema d ds Hind), (in_extrema e es Hine).
        by apply score_value_bounds.
      + apply recommendation_tier.
      + rewrite Hre. eauto.
      + eauto. }
  destruct (slice_to_take scored max_alternatives) as [k Hk].
  split_and!.
  - intros Hmax. rewrite slice_to_nonneg by done. rewrite length_take. lia.
  - intros Hmax. rewrite slice_to_nonneg by lia.
    apply score_routes_length in Hsc. apply exc_mapM_length in Hem.
    destruct scored as [|r0 scored'].
    { destruct normalized; [done|]. simpl in *. lia. }
    destruct (Z.to_nat max_alternatives) eqn:E; [lia|done].
  - rewrite Hk. by apply StronglySorted_take.
  - rewrite Hk. by apply Forall_take.
Qed.

(** X13.  A call never evicts and never touches another request's entry:
    whatever the outcome, the optimizer keeps its clients and its time to
    live, every cache entry under a key other than the key of this request
    is exactly as before, and every key that was cached (expired or not)
    is still cached. *)
Theorem optimize_route_cache_frame (self : optimizer) (clk : clock)
    (origin destination : point) (stops : option (list point))
    (vehicle_type departure_time criteria : string) (max_alternatives : Z) :
  let self' :=
    (optimize_route coord_str haversine_distance self clk origin destination
       stops vehicle_type departure_time criteria max_alternatives).2 in
  let key := _generate_cache_key coord_str origin destination stops
               vehicle_type criteria in
  clients self' = clients self ∧ cache_ttl self' = cache_ttl self ∧
  (∀ k, k ≠ key → cache self' !! k = cache self !! k) ∧
  (∀ k, is_Some (cache self !! k) → is_Some (cache self' !! k)).
Proof.
  intros self' key.
  assert (cache self' = cache self ∨
          ∃ r, cache self' = _add_to_cache (cache self) (t_store clk) key r)
    as Hc.
  { subst self'. unfold optimize_route.
    destruct (optimize_route_body _ _ _ _ _ _ _ _ _ _ _) as [[r c]|e] eqn:Hb;
      simpl; [|by left].
    unfold optimize_route_body in Hb. fold key in Hb.
    destruct (_get_from_cache _ _ _ key) as [hit|] eqn:Hget.
    - injection Hb as _ <-. by left.
    - apply bind_ok in Hb as (? & _ & Hb). apply bind_ok in Hb as (? & _ & Hb).
      apply bind_ok in Hb as (? & _ & Hb). apply bind_ok in Hb as (? & _ & Hb).
      apply bind_ok in Hb as (? & _ & Hb). injection Hb as _ <-. eauto. }
  split_and!.
  - subst self'. unfold optimize_route. by destruct (try_except _ _).
  - subst self'. unfold optimize_route. by destruct (try_except _ _).
  - intros k Hk. destruct Hc as [->|[r ->]]; [done|].
    unfold _add_to_cache. by rewrite lookup_insert_ne.
  - intros k Hk. destruct Hc as [->|[r ->]]; [done|].
    unfold _add_to_cache. destruct (decide (key = k)) as [->|Hne].
    + rewrite lookup_insert_eq. eauto.
    + by rewrite lookup_insert_ne.
Qed.

(** X14.  A malformed air-quality payload costs the whole answer.  When
    the air-quality client answers with a dict that is not flagged as an
    error and whose ["data"] is neither [None] nor a dict, a call that
    misses the cache returns status "error" with no routes and stores
    nothing, whatever the route providers delivered. *)
Theorem optimize_route_malformed_weather (self : optimizer) (clk : clock)
    (origin destination : point) (stops : option (list point))
    (vehicle_type departure_time criteria : string) (max_alternatives : Z)
    (get_air_quality : point → exc pyval) (w : gmap string pyval) v :
  _get_from_cache (cache self) (cache_ttl self) (t_lookup clk)
    (_generate_cache_key coord_str origin destination stops
       vehicle_type criteria) = None →
  aqicn (clients self) = Some get_air_quality →
  (∀ p, get_air_quality p = Ok (VDict w)) →
  w !! "status" ≠ Some (VStr "error") →
  w !! "data" = Some v → v ≠ VNone → (∀ d, v ≠ VDict d) →
  ∃ result self',
    optimize_route coord_str haversine_distance self clk origin destination
      stops vehicle_type departure_time criteria max_alternatives
    = (result, self') ∧
    status result = "error" ∧ routes result = [] ∧
    cache self' = cache self.
Proof.
  intros Hmiss Haq Hf Hst Hdata Hnone Hdict.
  destruct (summarize_weather_malformed w v Hst Hdata Hnone Hdict) as [e He].
  assert (∃ e', optimize_route_body coord_str haversine_distance self clk
                  origin destination stops vehicle_type departure_time
                  criteria max_alternatives = Raise e') as [e' Hb].
  { unfold optimize_route_body. rewrite Hmiss.
    unfold _get_weather_data. rewrite Haq, Hf. cbn [try_except]. rewrite He.
    destruct (match _get_tomtom_routes _ _ _ _ _ _ with [] => _ | _ => _ end)
      as [x|?]; cbn [mbind exc_bind bind]; [|eauto].
    destruct (_calculate_emissions _ _) as [y|?];
      cbn [mbind exc_bind bind]; [|eauto].
    destruct (_score_routes _ _) as [z|?]; cbn [mbind exc_bind bind]; [|eauto].
    destruct (_summarize_traffic _) as [t|?];
      cbn [mbind exc_bind bind]; eauto. }
  unfold optimize_route. rewrite Hb. cbn [try_except].
  eexists _, _. split; [reflexivity|]. done.
Qed.

(** X15.  A failing provider does not take the others down.  With a
    TomTom client whose routing call and traffic call both raise, no
    Google and no air-quality client, and an OSRM client that returns at
    least one route, all with numeric distance and duration, a call that
    misses the cache returns status "success" with
    [min(number of OSRM routes, max_alternatives)] routes, all of provider
    "osrm"; the traffic summary is "unknown" and the weather summary is
    the demo value "good". *)
Theorem optimize_route_provider_isolation (self : optimizer) (clk : clock)
    (origin destination : point) (stops : option (list point))
    (vehicle_type departure_time criteria : string) (max_alternatives : Z)
    (c : tomtom_client)
    (get_route : point → point → option (list point) → exc (list osrm_route))
    (rs : list osrm_route) e1 e2 :
  _get_from_cache (cache self) (cache_ttl self) (t_lookup clk)
    (_generate_cache_key coord_str origin destination stops
       vehicle_type criteria) = None →
  clients self = {| tomtom := Some c; google_maps := None;
                    osrm := Some get_route; aqicn := None |} →
  tomtom_get_route c origin destination stops vehicle_type departure_time
  = Raise e1 →
  get_traffic_flow c (_get_route_area origin destination stops) = Raise e2 →
  get_route origin destination stops = Ok rs →
  rs ≠ [] →
  Forall (λ r, ∃ len t, osrm_distance r = VNum len ∧ osrm_duration r = VNum t)
         rs →
  (0 <= max_alternatives)%Z →
  let result :=
    (optimize_route coord_str haversine_distance self clk origin destination
       stops vehicle_type departure_time criteria max_alternatives).1 in
  status result = "success" ∧
  length (routes result) = Nat.min (length rs) (Z.to_nat max_alternatives) ∧
  Forall (λ r, provider r = "osrm"%string) (routes result) ∧
  cs_status <$> traffic_conditions (meta result) = Some "unknown"%string ∧
  cs_status <$> weather_conditions (meta result) = Some "good"%string.
Proof.
  intros Hmiss Hcl Htt Htf Hos Hne Hnum Hmax result.
  set (raws := map (λ ir : nat * osrm_route,
                      {| raw_provider := "osrm";
                         route_id := "osrm-" +:+ pretty ir.1;
                         summary := summary_dict (osrm_distance ir.2)
                                      (osrm_duration ir.2) (VNum 0);
                         raw_geometry := osrm_geometry ir.2;
                         raw := osrm_raw ir.2 |}) (enumerate rs)).
  assert (length raws = length rs) as Hlen.
  { unfold raws, enumerate. by rewrite length_map, length_imap. }
  destruct (pipeline_numeric raws vehicle_type criteria)
    as (normalized & with_em & scored & Hn & He & Hs & Hp & _).
  { unfold raws. apply Forall_forall. intros rr Hrr.
    apply list_elem_of_fmap in Hrr as ([i r] & -> & Hir).
    unfold enumerate in Hir. apply list_elem_of_lookup in Hir as [j Hj].
    rewrite list_lookup_imap in Hj.
    destruct (rs !! j) as [r'|] eqn:Hr'; [|done]. injection Hj as <- <-.
    rewrite Forall_forall in Hnum.
    destruct (Hnum r') as (len & t & Hl & Ht);
      [by eapply list_elem_of_lookup_2|].
    exists len, t, (VNum 0). cbn [summary snd]. by rewrite Hl, Ht. }
  assert (length scored = length rs) as Hlen'.
  { rewrite <- Hlen, <- (length_map provider scored), Hp.
    by rewrite length_map. }
  assert (Forall (λ r, provider r = "osrm"%string) scored) as Hprov.
  { apply Forall_forall. intros r Hr.
    assert (provider r ∈ map raw_provider raws) as Hin.
    { rewrite <- Hp. by apply list_elem_of_fmap_2. }
    unfold raws in Hin. rewrite map_map in Hin. simpl in Hin.
    apply list_elem_of_fmap in Hin as (? & -> & _). done. }
  assert (raws ≠ []) as Hraws.
  { intros E. rewrite E in Hlen. destruct rs; [done|discriminate]. }
  assert (result
          = {| status := "success"; message := None;
               query_echo :=
                 Some {| q_origin := origin; q_destination := destination;
                         q_stops := stops; q_vehicle_type := vehicle_type;
                         q_optimization_criteria := criteria |};
               routes := take (Z.to_nat max_alternatives) scored;
               meta :=
                 {| traffic_conditions :=
                      Some {| cs_status := "unknown";
                              cs_description := "Traffic data unavailable";
                              cs_average_flow := None; cs_aqi := None |};
                    weather_conditions :=
                      Some {| cs_status := "good";
                              cs_description :=
                                "Good air quality, no impact on transportation";
                              cs_average_flow := None; cs_aqi := Some 45 |};
                    route_count :=
                      Some (length (take (Z.to_nat max_alternatives) scored));
                    error_details := None;
                    generated_at := iso_now clk |} |}) as Hres.
  { unfold result, optimize_route, optimize_route_body.
    rewrite Hmiss, Hcl.
    unfold _get_tomtom_routes, _get_google_routes, _get_osrm_routes,
      _get_traffic_data, _get_weather_data.
    cbn [tomtom google_maps osrm aqicn].
    rewrite Htt, Htf, Hos. cbn [try_except mbind exc_bind bind].
    fold raws. destruct raws as [|rr0 raws'] eqn:Eraws; [done|].
    unfold _normalize_routes. cbn [concat app]. rewrite app_nil_r.
    rewrite Hn. cbn [mbind exc_bind bind]. rewrite He.
    cbn [mbind exc_bind bind]. rewrite Hs. cbn [mbind exc_bind bind].
    rewrite slice_to_nonneg by done. reflexivity. }
  rewrite Hres. cbn [status routes meta traffic_conditions weather_conditions].
  split_and!; [done| |by apply Forall_take|done..].
  rewrite length_take, Hlen'. lia.
Qed.

End Pipeline.

(** X11 on the Chennai Central to airport request: the second call comes
    499 s after the first stored its result, asks for one alternative and
    another departure time, and gets the first call's three routes. *)
Lemma optimize_route_repeat_witness :
  let first :=
    optimize_route sample_coord_str haversine_chennai (init no_clients) noon
      chennai_central chennai_airport None "delivery_van" "now" "time" 3 in
  optimize_route sample_coord_str haversine_chennai first.2 later
    chennai_central chennai_airport None "delivery_van" "tomorrow" "time" 1
  = first.
Proof.
  intros first. rewrite (surjective_pairing first) at 2.
  apply (optimize_route_repeat sample_coord_str haversine_chennai
           (init no_clients) noon later chennai_central chennai_airport None
           "delivery_van" "now" "tomorrow" "time" 3 1).
  - reflexivity.
  - apply surjective_pairing.
  - vm_compute. reflexivity.
  - vm_compute. reflexivity.
Defined.

(** X12 on the same request with two alternatives. *)
Lemma optimize_route_success_shape_witness :
  let result :=
    (optimize_route sample_coord_str haversine_chennai (init no_clients) noon
       chennai_central chennai_airport None "delivery_van" "now" "time" 2).1 in
  route_count (meta result) = Some 2%nat ∧
  StronglySorted desc_by_score (routes result).
Proof.
  intros result.
  destruct (optimize_route_success_shape sample_coord_str haversine_chennai
              (init no_clients) noon chennai_central chennai_airport None
              "delivery_van" "now" "time" 2)
    as (Hcount & _ & _ & Hsorted & _).
  - reflexivity.
  - vm_compute. reflexivity.
  - split; [|exact Hsorted]. fold result in Hcount. rewrite Hcount.
    vm_compute. reflexivity.
Defined.

(** X14 with an air-quality client that answers
    [{"status": "ok", "data": "Invalid key"}]. *)
Lemma optimize_route_malformed_weather_witness :
  ∃ result self',
    optimize_route sample_coord_str haversine_chennai (init keyless_aqicn) noon
      chennai_central chennai_airport None "delivery_van" "now" "balanced" 3
    = (result, self') ∧
    status result = "error" ∧ routes result = [] ∧ cache self' = ∅.
Proof.
  apply (optimize_route_malformed_weather sample_coord_str haversine_chennai
           (init keyless_aqicn) noon chennai_central chennai_airport None
           "delivery_van" "now" "balanced" 3
           (λ _, Ok (VDict (<["status" := VStr "ok"]>
                              {["data" := VStr "Invalid key"]})))
           (<["status" := VStr "ok"]> {["data" := VStr "Invalid key"]})
           (VStr "Invalid key")); try reflexivity; try discriminate.
Defined.

(** X15 with TomTom timing out and OSRM returning two routes. *)
Lemma optimize_route_provider_isolation_witness :
  let result :=
    (optimize_route sample_coord_str haversine_chennai
       (init tomtom_down_osrm_up) noon chennai_central chennai_airport None
       "delivery_van" "now" "balanced" 3).1 in
  status result = "success" ∧ length (routes result) = 2%nat ∧
  Forall (λ r, provider r = "osrm"%string) (routes result).
Proof.
  intros result.
  destruct (optimize_route_provider_isolation sample_coord_str
              haversine_chennai (init tomtom_down_osrm_up) noon
              chennai_central chennai_airport None "delivery_van" "now"
              "balanced" 3 failing_tomtom (λ _ _ _, Ok two_osrm_routes)
              two_osrm_routes (ProviderError "timed out")
              (ProviderError "timed out"))
    as (Hstatus & Hlen & Hprov & _);
    [reflexivity | reflexivity | reflexivity | reflexivity | reflexivity
    | discriminate | | discriminate | ].
  - repeat constructor; eexists _, _; split; reflexivity.
  - split_and!; [exact Hstatus | exact Hlen | exact Hprov].
Defined.

(** ** The cache key, once more *)

(** X16.  When printed coordinates are self-delimiting, two requests with
    the same vehicle type and priority share a cache key exactly when they
    have the same origin, the same destination and the same sequence of
    stops, where no stops ([None]) and an empty list of stops count as the
    same. *)
Theorem cache_key_same_route {coord} (str : coord → string)
    origin destination stops origin' destination' stops'
    vehicle_type criteria :
  self_delimiting str →
  _generate_cache_key str origin destination stops vehicle_type criteria
  = _generate_cache_key str origin' destination' stops' vehicle_type criteria
  ↔ origin = origin' ∧ destination = destination' ∧
    default [] stops = default [] stops'.
Proof.
  intros Hstr. split.
  - by apply cache_key_separates_routes.
  - intros (-> & -> & Hs). unfold _generate_cache_key.
    destruct stops as [[|s l]|], stops' as [[|s' l']|]; simpl in Hs;
      try discriminate; try done.
    by injection Hs as -> ->.
Qed.

(** X16 with integer coordinates: no stops and an empty list of stops
    share a key, one stop does not share it. *)
Lemma cache_key_same_route_witness :
  let key := _generate_cache_key (pretty : Z → string) in
  key (13, 80)%Z (12, 80)%Z None "delivery_van" "time"
  = key (13, 80)%Z (12, 80)%Z (Some []) "delivery_van" "time" ∧
  key (13, 80)%Z (12, 80)%Z (Some [(1, 2)]%Z) "delivery_van" "time"
  ≠ key (13, 80)%Z (12, 80)%Z None "delivery_van" "time".
Proof.
  intros key. split.
  - by apply (proj2 (cache_key_same_route pretty _ _ _ _ _ _ _ _
                       pretty_Z_self_delimiting)).
  - intros H.
    apply (proj1 (cache_key_same_route pretty _ _ _ _ _ _ _ _
                    pretty_Z_self_delimiting)) in H as (_ & _ & H).
    discriminate.
Defined.

(** ** Further properties of the factor-model estimator *)

Lemma non_numeric_congestion_fallback ef (d : Q) vehicle_type speed gradient
    payload congestion weather :
  (∀ q, congestion ≠ VNum q) →
  EmissionsCalculator.calculate_emissions ef (VNum d) vehicle_type speed
    gradient payload congestion weather = Ok (d * 0.4).
Proof.
  intros Hc. apply ill_formed_call_fallback.
  intros (? & ? & ? & ? & ? & ? & ? & c & ? & _ & _ & _ & _ & _ & _ & _ & E & _).
  by destruct (Hc c).
Qed.

(** X17.  [compare_route_emissions] never reaches the factor model for
    routes whose weather is a text or absent.  For routes with a numeric
    ['distance'] and a ['weather_conditions'] that is not a number, it
    returns the routes in order, each with ['emissions'] equal to
    [0.4 × distance] and the matching ['emissions_text'], every other key
    unchanged: the same figure for every vehicle type and every emission
    table, since the weather value is passed in the congestion position
    and the estimator falls back. *)
Theorem compare_route_emissions_flat (fmt2 : Q → string) ef
    (routes : list (gmap string pyval)) vehicle_type :
  Forall (λ r, (∃ d, r !! "distance" = Some (VNum d)) ∧
               ∀ q, r !! "weather_conditions" ≠ Some (VNum q)) routes →
  ∃ out,
    EmissionsCalculator.compare_route_emissions fmt2 ef routes vehicle_type
    = Ok out ∧
    Forall2 (flat_estimate fmt2) routes out.
Proof.
  unfold EmissionsCalculator.compare_route_emissions.
  induction 1 as [|r routes [[d Hd] Hw] _ (out & IH & IH2)].
  - exists []. split; [done|constructor].
  - cbn [exc_mapM]. unfold EmissionsCalculator.compare_route at 1.
    cbn [getitem]. rewrite Hd. cbn [mbind exc_bind bind].
    rewrite non_numeric_congestion_fallback.
    2:{ intros q. destruct (r !! "weather_conditions") as [v|] eqn:E;
          simpl; [|done]. intros ->. by destruct (Hw q). }
    rewrite IH. cbn [mbind exc_bind bind]. eexists. split; [reflexivity|].
    constructor; [|done]. exists d. split_and!; [done| | |].
    + rewrite lookup_insert_ne by done. by rewrite lookup_insert_eq.
    + by rewrite lookup_insert_eq.
    + intros k H1 H2. by rewrite !lookup_insert_ne.
Qed.

(** X17 on a 10-mile route in rain and a 5-mile route without weather,
    for a semi-truck; [sample_coord_str] stands in for the [:.2f]
    formatting. *)
Lemma compare_route_emissions_flat_witness :
  ∃ out,
    EmissionsCalculator.compare_route_emissions sample_coord_str
      EmissionsCalculator.default_emission_factors
      [<["distance" := VNum 10]> {["weather_conditions" := VStr "rain"]};
       {["distance" := VNum 5]}] "Semi-Truck" = Ok out ∧
    Forall2 (flat_estimate sample_coord_str)
      [<["distance" := VNum 10]> {["weather_conditions" := VStr "rain"]};
       {["distance" := VNum 5]}] out.
Proof.
  apply compare_route_emissions_flat.
  repeat constructor; first [by eexists | intros q; discriminate].
Defined.

Lemma factor_ge a f : 0 <= a → 1 <= f → a <= a * f.
Proof. intros Ha Hf. nra. Qed.

(** X18.  On the factor path the adjustments never lower the estimate.
    For a well-formed call with non-negative distance, base rate, payload,
    payload factor and congestion, the estimate is at least
    [distance_miles × 1.60934 × rate / 1000] kg, whatever the speed, the
    gradient and the weather; and that base figure is exactly the estimate
    for the default arguments (55 mph, gradient 0, payload 0, congestion
    0, weather "normal"). *)
Theorem calculate_emissions_at_least_base table vehicle_type row
    (distance_miles rate pf speed gradient payload congestion : Q)
    (weather : string) :
  profile_row table vehicle_type = Some (VDict row) →
  row !! "base_emission_rate" = Some (VNum rate) →
  row !! "payload_factor" = Some (VNum pf) →
  0 <= distance_miles → 0 <= rate → 0 <= payload → 0 <= pf → 0 <= congestion →
  ∃ kg kg0,
    EmissionsCalculator.calculate_emissions (VDict table)
      (VNum distance_miles) vehicle_type (VNum speed) (VNum gradient)
      (VNum payload) (VNum congestion) (VStr weather) = Ok kg ∧
    distance_miles * 1.60934 * rate / 1000 <= kg ∧
    EmissionsCalculator.calculate_emissions (VDict table)
      (VNum distance_miles) vehicle_type (VNum 55) (VNum 0) (VNum 0) (VNum 0)
      (VStr "normal") = Ok kg0 ∧
    kg0 == distance_miles * 1.60934 * rate / 1000.
Proof.
  intros Hrow Hrate Hpf Hd Hr Hp Hpf0 Hc.
  pose proof (lookup_row _ _ _ Hrow) as Hl.
  assert (∀ s g p c w,
    ∃ f1 f2 f3 f4 f5,
      EmissionsCalculator.calculate_emissions (VDict table)
        (VNum distance_miles) vehicle_type (VNum s) (VNum g) (VNum p)
        (VNum c) (VStr w)
      = Ok (distance_miles * 1.60934 * rate * f1 * f2 * f3 * f4 * f5 / 1000) ∧
      1 <= f1 ∧ f2 = 1.0 + Qabs g * 0.02 ∧ f3 = 1.0 + p / 100 * pf ∧
      f4 = 1.0 + c * 0.3 ∧ 1 <= f5 ∧
      (30 <= s → s < 75 → f1 = 1.0) ∧ (lower w = "normal"%string → f5 = 1.0))
    as Hshape.
  { intros s g p c w.
    unfold EmissionsCalculator.calculate_emissions,
      EmissionsCalculator.calculate_emissions_body.
    apply bind_ok in Hl as (known & -> & Hl). cbn [mbind exc_bind bind].
    rewrite Hl. cbn [mbind exc_bind bind getitem as_num]. rewrite Hrate, Hpf.
    cbn [mbind exc_bind bind as_num EmissionsCalculator.str_lower try_catch].
    eexists _, _, _, _, _. split; [reflexivity|]. split_and!; try done.
    - destruct (Qlt_le_dec s 30); [done|]. by destruct (Qlt_le_dec 75 s).
    - destruct (String.eqb (lower w) "rain"); [done|].
      destruct (String.eqb (lower w) "snow"); [done|].
      by destruct (String.eqb (lower w) "strong wind").
    - intros H1 H2. destruct (Qlt_le_dec s 30); [lra|].
      destruct (Qlt_le_dec 75 s); [lra|done].
    - by intros ->. }
  destruct (Hshape speed gradient payload congestion weather)
    as (f1 & f2 & f3 & f4 & f5 & -> & H1 & -> & -> & -> & H5 & _).
  destruct (Hshape 55 0 0 0 "normal"%string)
    as (g1 & g2 & g3 & g4 & g5 & -> & _ & -> & -> & -> & _ & E1 & E5).
  eexists _, _. split; [reflexivity|]. split; [|split; [reflexivity|]].
  - set (base := distance_miles * 1.60934 * rate).
    assert (0 <= base) as Hb by (unfold base; nra).
    assert (base <= base * f1) as B1 by (by apply factor_ge).
    assert (base * f1 <= base * f1 * (1.0 + Qabs gradient * 0.02)) as B2.
    { apply factor_ge; [lra|]. pose proof (Qabs_nonneg gradient). lra. }
    assert (0 <= payload / 100 * pf) as Hpp.
    { apply Qmult_le_0_compat; [|done]. apply Qle_shift_div_l; lra. }
    assert (base * f1 * (1.0 + Qabs gradient * 0.02)
            <= base * f1 * (1.0 + Qabs gradient * 0.02)
               * (1.0 + payload / 100 * pf)) as B3.
    { apply factor_ge; lra. }
    assert (base * f1 * (1.0 + Qabs gradient * 0.02)
              * (1.0 + payload / 100 * pf)
            <= base * f1 * (1.0 + Qabs gradient * 0.02)
               * (1.0 + payload / 100 * pf) * (1.0 + congestion * 0.3)) as B4.
    { apply factor_ge; lra. }
    assert (base * f1 * (1.0 + Qabs gradient * 0.02)
              * (1.0 + payload / 100 * pf) * (1.0 + congestion * 0.3)
            <= base * f1 * (1.0 + Qabs gradient * 0.02)
               * (1.0 + payload / 100 * pf) * (1.0 + congestion * 0.3) * f5)
      as B5.
    { apply factor_ge; lra. }
    unfold Qdiv. apply Qmult_le_compat_r; [|done].
    eapply Qle_trans; [exact B1|]. eapply Qle_trans; [exact B2|].
    eapply Qle_trans; [exact B3|]. eapply Qle_trans; [exact B4|]. exact B5.
  - rewrite E1, E5 by done. change (Qabs 0) with 0. field.
Qed.

(** X18 for 100 miles in a box truck: 20 mph, gradient -2, 500 kg,
    congestion 0.5 and snow against the default arguments. *)
Lemma calculate_emissions_at_least_base_witness :
  ∃ kg kg0,
    EmissionsCalculator.calculate_emissions
      EmissionsCalculator.default_emission_factors (VNum 100) "Box Truck"
      (VNum 20) (VNum (-2)) (VNum 500) (VNum 0.5) (VStr "Snow") = Ok kg ∧
    100 * 1.60934 * 450 / 1000 <= kg ∧
    EmissionsCalculator.calculate_emissions
      EmissionsCalculator.default_emission_factors (VNum 100) "Box Truck"
      (VNum 55) (VNum 0) (VNum 0) (VNum 0) (VStr "normal") = Ok kg0 ∧
    kg0 == 100 * 1.60934 * 450 / 1000.
Proof.
  apply (calculate_emissions_at_least_base EmissionsCalculator.default_table
           "Box Truck" (EmissionsCalculator.factors 450 8 0.08)
           100 450 0.08 20 (-2) 500 0.5 "Snow");
    first [reflexivity | q_order].
Defined.

(** ** Further properties of the profile-based estimator *)

(** X19.  With loaded settings, a configuration that has a fuel
    efficiency is charged as a combustion vehicle: an energy efficiency
    that is also present plays no part; a fuel type without an entry in
    the emission-factor table gives 0 kg; and with numeric distance,
    efficiency and factor the estimate is
    [distance_meters / 1000 × efficiency / 100 × factor], the fuel type
    being "diesel" when the configuration names none. *)
Theorem profile_estimator_fuel_rules (table : gmap string pyval)
    (dm : pyval) (d : gmap string pyval) :
  (is_Some (d !! "fuel_efficiency_l_per_100km") →
   Prototype.calculate_emissions (Some table) dm (VDict d)
   = Prototype.calculate_emissions (Some table) dm
       (VDict (delete "energy_efficiency_kwh_per_100km" d))) ∧
  (∀ f, is_Some (d !! "fuel_efficiency_l_per_100km") →
        default (VStr "diesel") (d !! "fuel_type") = VStr f →
        table !! f = None →
        Prototype.calculate_emissions (Some table) dm (VDict d) == 0) ∧
  (∀ m eff f k,
        dm = VNum m →
        d !! "fuel_efficiency_l_per_100km" = Some (VNum eff) →
        default (VStr "diesel") (d !! "fuel_type") = VStr f →
        table !! f = Some (VNum k) →
        Prototype.calculate_emissions (Some table) dm (VDict d)
        == m / 1000 * eff / 100 * k).
Proof.
  unfold Prototype.calculate_emissions, Prototype.calculate_emissions_body.
  split_and!.
  - intros [v Hv]. destruct (as_num dm) as [m|]; [|done].
    cbn [mbind exc_bind bind contains getitem get_default].
    rewrite !lookup_delete_ne by done. rewrite Hv.
    rewrite !bool_decide_eq_true_2 by eauto. done.
  - intros f [v Hv] Hf Ht. destruct (as_num dm) as [m|]; [|done].
    cbn [mbind exc_bind bind contains getitem get_default].
    rewrite Hv, Hf. rewrite bool_decide_eq_true_2 by eauto.
    cbn [mbind exc_bind bind].
    destruct (as_num v) as [eff|]; [|done].
    cbn [mbind exc_bind bind Prototype.get_emission_factor]. rewrite Ht.
    simpl. ring.
  - intros m eff f k -> Hv Hf Ht.
    cbn [as_num mbind exc_bind bind contains getitem get_default].
    rewrite Hv, Hf. rewrite bool_decide_eq_true_2 by eauto.
    cbn [as_num mbind exc_bind bind Prototype.get_emission_factor]. rewrite Ht.
    simpl. field.
Qed.

(** X19 on 10 km with a configuration that has both efficiencies: charged
    at 6 l/100 km of diesel, and at 0 kg once its fuel type is the unknown
    "hydrogen". *)
Lemma profile_estimator_fuel_rules_witness :
  let table : gmap string pyval :=
    <["diesel" := VNum 2.68]> {["electric" := VNum 0.5]} in
  let hybrid : gmap string pyval :=
    <["fuel_efficiency_l_per_100km" := VNum 6]>
      (<["energy_efficiency_kwh_per_100km" := VNum 20]>
         {["fuel_type" := VStr "diesel"]}) in
  Prototype.calculate_emissions (Some table) (VNum 10000) (VDict hybrid)
  == 10000 / 1000 * 6 / 100 * 2.68 ∧
  Prototype.calculate_emissions (Some table) (VNum 10000)
    (VDict (<["fuel_type" := VStr "hydrogen"]> hybrid)) == 0.
Proof.
  intros table hybrid.
  destruct (profile_estimator_fuel_rules table (VNum 10000) hybrid)
    as (_ & _ & Hformula).
  destruct (profile_estimator_fuel_rules table (VNum 10000)
              (<["fuel_type" := VStr "hydrogen"]> hybrid))
    as (_ & Hunknown & _).
  split.
  - apply (Hformula 10000 6 "diesel"%string 2.68); reflexivity.
  - apply (Hunknown "hydrogen"%string); [by eexists | reflexivity..].
Defined.

(** ** The address entry point *)

Section AddressFacts.
Variable coord_str : Q → string.
Variable haversine_distance : Q → Q → Q → Q → exc Q.
Variable geocode : string → exc (option point).

Lemma geocode_address_default clients a :
  no_geocoding geocode clients →
  a ≠ "Chennai International Airport"%string →
  _geocode_address geocode clients a = (13.0827, 80.2707).
Proof.
  intros Hno Ha. unfold _geocode_address, geocoding_map.
  destruct (decide (a = "Chennai Central Railway Station"%string)) as [->|Hs].
  { by rewrite lookup_insert_eq. }
  rewrite !lookup_insert_ne by done. rewrite lookup_empty.
  destruct Hno as [->|Hno]; [done|].
  destruct (google_maps clients); [|done].
  by destruct (Hno a) as [->|[e0 ->]].
Qed.

(** X20.  Without a geocoding service (no Google client, or a geocoder
    that finds nothing or raises), every address other than "Chennai
    International Airport" is taken for Chennai Central.  Hence two
    requests that name no airport and have the same number of stops get
    the same answer and leave the optimizer in the same state, whatever
    their addresses are. *)
Theorem calculate_routes_unknown_address (self : optimizer) (clk : clock)
    (origin destination origin' destination' : string)
    (vehicle_type priority : string) (stops stops' : option (list string)) :
  no_geocoding geocode (clients self) →
  Forall (λ a, a ≠ "Chennai International Airport"%string)
    (origin :: destination :: default [] stops) →
  Forall (λ a, a ≠ "Chennai International Airport"%string)
    (origin' :: destination' :: default [] stops') →
  length (default [] stops) = length (default [] stops') →
  calculate_routes coord_str haversine_distance geocode self clk
    origin destination vehicle_type priority stops
  = calculate_routes coord_str haversine_distance geocode self clk
      origin' destination' vehicle_type priority stops'.
Proof.
  intros Hno H H' Hlen.
  apply Forall_cons in H as [Ho H]. apply Forall_cons in H as [Hd H].
  apply Forall_cons in H' as [Ho' H']. apply Forall_cons in H' as [Hd' H'].
  unfold calculate_routes.
  rewrite !geocode_address_default by done.
  assert (∀ l, Forall (λ a, a ≠ "Chennai International Airport"%string) l →
               map (_geocode_address geocode (clients self)) l
               = replicate (length l) (13.0827, 80.2707)) as Hmap.
  { induction 1 as [|a l Ha _ IH]; [done|]. simpl.
    by rewrite geocode_address_default, IH. }
  by rewrite (Hmap _ H), (Hmap _ H'), Hlen.
Qed.

End AddressFacts.

(** X20 on two pairs of addresses that the placeholder map does not
    know. *)
Lemma calculate_routes_unknown_address_witness :
  calculate_routes sample_coord_str haversine_chennai (λ _, Ok None)
    (init no_clients) noon "Guindy" "T Nagar" "delivery_van" "balanced" None
  = calculate_routes sample_coord_str haversine_chennai (λ _, Ok None)
      (init no_clients) noon "Adyar" "Chennai Central Railway Station"
      "delivery_van" "balanced" (Some []).
Proof.
  apply calculate_routes_unknown_address.
  - by left.
  - repeat constructor; discriminate.
  - repeat constructor; discriminate.
  - reflexivity.
Defined.
